(** * Session middleware, signup action and realtime refetch of the
      Supabase SSR rule document

    Shallow embedding of the TypeScript listed in
    [.cursor/rules/supabase_ssr_client_use.mdc]:
    - [updateSession] (lib/supabase/middleware.ts, lines 85-124),
    - [signup], [login], [logout] (app/auth/actions.ts, lines 150-214),
    - [ClientDataComponent] with its [fetchData] (lines 224-267),
    - [ServerDataComponent] (lines 274-301),
    - [createRecord], [updateRecord], [deleteRecord] (lines 309-391),
    - [actionWithErrorHandling] (lines 400-440).

    Remote services (the auth provider, the [profiles] table, the realtime
    table) are not part of the repository; each is represented by the answer
    it gives to the one call the code makes, and the code is written over
    these answers. *)

From Stdlib Require Import String List ZArith Bool Lia.
From Stdlib Require Import Sorted Permutation.
Import ListNotations.
Open Scope string_scope.

Set Implicit Arguments.

(** ** JavaScript basics shared by the three programs *)

Module Js.

(** How the evaluation of an [await]ed call ends: with a value, or with a
    thrown exception that the surrounding [async] function rethrows. *)
Inductive Completion (A : Type) : Type :=
| Returned (a : A)
| Thrown (e : string).
Arguments Thrown {A} e.

(** [s.startsWith(p)]. *)
Definition startsWith (s p : string) : bool := String.prefix p s.

(** [!x] for [x : string | undefined]: [undefined] and the empty string are
    falsy. [truthy x] keeps the string when [!x] is false. *)
Definition truthy (x : option string) : option string :=
  match x with
  | Some "" => None
  | Some s => Some s
  | None => None
  end.

(** [!u] for an object or null. *)
Definition not_ {A : Type} (u : option A) : bool :=
  match u with
  | Some _ => false
  | None => true
  end.

End Js.

(** ** lib/supabase/middleware.ts *)

Module Middleware.
Import Js.

(** An entry of [request.cookies]. *)
Record RequestCookie : Type := {
  rc_name : string;
  rc_value : string
}.

(** The [options] of a cookie written by the auth client. *)
Record CookieOptions : Type := {
  maxAge : option Z;
  path : option string;
  httpOnly : bool;
  secure : bool;
  sameSite : option string
}.

(** An element of [cookiesToSet]; a response cookie holds the same triple. *)
Record CookieToSet : Type := {
  name : string;
  value : string;
  options : CookieOptions
}.

(** [request.nextUrl]. *)
Record NextURL : Type := {
  protocol : string;
  username : string;
  password : string;
  hostname : string;
  port : string;
  pathname : string;
  search : string;
  hash : string
}.

Record NextRequest : Type := {
  cookies : list RequestCookie;
  nextUrl : NextURL
}.

(** [NextResponse.next({ request })] forwards the request (with the cookies
    it has at that moment); [NextResponse.redirect(url)] sends the client to
    [url]. *)
Inductive ResponseKind : Type :=
| PassThrough (forwarded : list RequestCookie)
| Redirect (location : NextURL).

Record NextResponse : Type := {
  kind : ResponseKind;
  res_cookies : list CookieToSet
}.

Record User : Type := {
  user_id : string;
  user_email : option string
}.

(** [request.cookies.set(name, value)]: the cookie jar is a Map keyed by
    name, so an existing entry is overwritten in place and a new one is
    appended. *)
Fixpoint RequestCookies_set (n v : string) (jar : list RequestCookie)
  : list RequestCookie :=
  match jar with
  | [] => [{| rc_name := n; rc_value := v |}]
  | c :: jar' =>
      if String.eqb (rc_name c) n
      then {| rc_name := n; rc_value := v |} :: jar'
      else c :: RequestCookies_set n v jar'
  end.

(** [response.cookies.set(name, value, options)], same Map discipline. *)
Fixpoint ResponseCookies_set (c : CookieToSet) (jar : list CookieToSet)
  : list CookieToSet :=
  match jar with
  | [] => [c]
  | d :: jar' =>
      if String.eqb (name d) (name c)
      then c :: jar'
      else d :: ResponseCookies_set c jar'
  end.

Definition NextResponse_next (request : NextRequest) : NextResponse :=
  {| kind := PassThrough (cookies request); res_cookies := [] |}.

Definition NextResponse_redirect (url : NextURL) : NextResponse :=
  {| kind := Redirect url; res_cookies := [] |}.

(** [url.pathname = p] on a clone of the URL. *)
Definition set_pathname (url : NextURL) (p : string) : NextURL :=
  {| protocol := protocol url;
     username := username url;
     password := password url;
     hostname := hostname url;
     port := port url;
     pathname := p;
     search := search url;
     hash := hash url |}.

(** What [supabase.auth.getUser()] does as seen from [updateSession]: it
    reads the jar through [getAll], calls [setAll] zero or more times, each
    time with one batch of cookies, and then returns the user or throws. *)
Definition GetUserResult : Type := (option User * list (list CookieToSet))%type.
Definition AuthClient : Type := list RequestCookie -> Completion GetUserResult.

(** The mutable pair the closures of [updateSession] share. *)
Definition Shared : Type := (NextRequest * NextResponse)%type.

(** The [setAll] callback (lines 96-104). *)
Definition setAll (st : Shared) (cookiesToSet : list CookieToSet) : Shared :=
  let request :=
    fold_left
      (fun (r : NextRequest) (c : CookieToSet) =>
         {| cookies := RequestCookies_set (name c) (value c) (cookies r);
            nextUrl := nextUrl r |})
      cookiesToSet (fst st) in
  let supabaseResponse := NextResponse_next request in
  (request,
   fold_left
     (fun (resp : NextResponse) (c : CookieToSet) =>
        {| kind := kind resp;
           res_cookies := ResponseCookies_set c (res_cookies resp) |})
     cookiesToSet supabaseResponse).

Definition protectedRoutes : list string := ["/dashboard"].

(** [updateSession] (lines 85-124). *)
Definition updateSession (getUser : AuthClient) (request : NextRequest)
  : Completion NextResponse :=
  let supabaseResponse := NextResponse_next request in
  match getUser (cookies request) with
  | Thrown e => Thrown e
  | Returned (user, batches) =>
      let '(request', supabaseResponse') :=
        fold_left setAll batches (request, supabaseResponse) in
      let pathname := pathname (nextUrl request') in
      if not_ user && existsb (fun p => startsWith pathname p) protectedRoutes
      then
        let url := set_pathname (nextUrl request') "/login" in
        Returned (NextResponse_redirect url)
      else Returned supabaseResponse'
  end.

(** The route decision a response stands for. *)
Inductive Decision : Type :=
| Allow
| RedirectTo (loginPath : string).

Definition decision_of (r : NextResponse) : Decision :=
  match kind r with
  | PassThrough _ => Allow
  | Redirect url => RedirectTo (pathname url)
  end.

(** A path is protected when some entry of the table is a prefix of it. *)
Definition protected (p : string) : Prop :=
  exists q rest, In q protectedRoutes /\ p = q ++ rest.

(** The cookie mutations captured during the refresh, in order. *)
Definition captured (batches : list (list CookieToSet)) : list CookieToSet :=
  concat batches.

End Middleware.

(** ** The identity provider behind [getUser] *)

Module IdentityGateway.
Import Js Middleware.

(** What the provider says about a session token. *)
Inductive TokenVerdict : Type :=
| TokenValid (u : User)
| TokenRenewed (u : User) (token : string) (opts : CookieOptions)
| TokenRejected.

Record IdentityProvider : Type := {
  session_cookie : string;
  reachable : bool;
  verify : string -> TokenVerdict
}.

Fixpoint find_cookie (n : string) (jar : list RequestCookie) : option string :=
  match jar with
  | [] => None
  | c :: jar' =>
      if String.eqb (rc_name c) n then Some (rc_value c)
      else find_cookie n jar'
  end.

(** The mutation that clears cookie [n]: empty value, zero lifetime. *)
Definition clearing_cookie (n : string) : CookieToSet :=
  {| name := n;
     value := "";
     options := {| maxAge := Some 0%Z; path := Some "/"; httpOnly := false;
                   secure := false; sameSite := None |} |}.

Definition is_clearing (c : CookieToSet) : Prop :=
  value c = "" /\ maxAge (options c) = Some 0%Z.

(** Modelled from the spec: the validate/refresh-session operation of the
    IdentityGateway, which lives in the [@supabase/ssr] package and is absent
    from the sources. Sections 4.1 and 6: it reads the incoming cookie set and
    answers (user or absent, mutations); a renewed token is a mutation, a
    rejected token yields absent with the clearing mutation, an absent token
    or an unreachable provider yields absent with no mutation; it does not
    throw for an expired or invalid session. *)
Definition validateSession (idp : IdentityProvider) : AuthClient :=
  fun jar =>
    match find_cookie (session_cookie idp) jar with
    | None => Returned (None, [])
    | Some token =>
        if reachable idp then
          match verify idp token with
          | TokenValid u => Returned (Some u, [])
          | TokenRenewed u token' opts =>
              Returned (Some u,
                        [[{| name := session_cookie idp;
                             value := token';
                             options := opts |}]])
          | TokenRejected =>
              Returned (None, [[clearing_cookie (session_cookie idp)]])
          end
        else Returned (None, [])
    end.

(** The session carried by [jar] is absent, expired or rejected, or the
    provider cannot be asked. *)
Definition session_invalid (idp : IdentityProvider) (jar : list RequestCookie)
  : Prop :=
  match find_cookie (session_cookie idp) jar with
  | None => True
  | Some token => reachable idp = false \/ verify idp token = TokenRejected
  end.

End IdentityGateway.

(** ** app/auth/actions.ts *)

Module Signup.
Import Js.

(** [FormData] restricted to string entries; [get] answers [null] for a
    missing field, which the cast [as string] does not change. *)
Definition FormData : Type := list (string * string).

Fixpoint FormData_get (formData : FormData) (field : string) : option string :=
  match formData with
  | [] => None
  | (k, v) :: rest =>
      if String.eqb k field then Some v else FormData_get rest field
  end.

(** A row of [auth.users]. *)
Record Identity : Type := {
  identity_id : string;
  identity_email : option string;
  identity_data : list (string * string)
}.

(** A row of [profiles], with the columns the insert names. *)
Record Profile : Type := {
  id : string;
  email : option string;
  role : string
}.

(** The two remote stores. *)
Record World : Type := {
  identities : list Identity;
  profiles : list Profile
}.

(** The answers of the remote services during one run of the action. Each
    operation is called at most once per run, so one answer per operation
    describes every behaviour of the services. *)
Inductive SignUpAnswer : Type :=
| SignUpRejects (authError : string)
| SignUpCreates (userId : string)
| SignUpNoUser.

Record Env : Type := {
  on_signUp : SignUpAnswer;
  on_insert : option string;
  on_deleteUser : option string
}.

(** [{ data: { user }, error }] of [auth.signUp]. *)
Record AuthResponse : Type := {
  user : option Identity;
  error : option string
}.

(** Everything the action does to the outside, in order. Remote calls are
    recorded with their answer. *)
Inductive Effect : Type :=
| CallSignUp (email password : option string) (data : list (string * string))
             (answer : SignUpAnswer)
| CallInsert (table : string) (row : Profile) (error : option string)
| CallDeleteUser (userId : string) (error : option string)
| CallRevalidatePath (path type : string)
| ConsoleError (label err : string).

Record St : Type := {
  world : World;
  log : list Effect
}.

(** [redirect(target)] of next/navigation never returns: it ends the
    action. *)
Inductive Step (A : Type) : Type :=
| Continue (a : A)
| Redirected (target : string).
Arguments Redirected {A} target.

Definition Action (A : Type) : Type := St -> Step A * St.

Definition ret {A : Type} (a : A) : Action A := fun st => (Continue a, st).

Definition bind {A B : Type} (m : Action A) (k : A -> Action B) : Action B :=
  fun st =>
    match m st with
    | (Continue a, st') => k a st'
    | (Redirected target, st') => (Redirected target, st')
    end.

Declare Scope action_scope.
Delimit Scope action_scope with action.
Notation "x <- m ;; k" := (bind m (fun x => k))
  (at level 100, m at next level, right associativity) : action_scope.
Notation "m ;; k" := (bind m (fun _ => k))
  (at level 100, right associativity) : action_scope.
Local Open Scope action_scope.

Definition emit (e : Effect) (st : St) : St :=
  {| world := world st; log := log st ++ [e] |}.

Definition redirect {A : Type} (target : string) : Action A :=
  fun st => (Redirected target, st).

Definition console_error (label err : string) : Action unit :=
  fun st => (Continue tt, emit (ConsoleError label err) st).

Definition revalidatePath (path type : string) : Action unit :=
  fun st => (Continue tt, emit (CallRevalidatePath path type) st).

Definition same_id (u : string) (i : Identity) : bool :=
  String.eqb (identity_id i) u.

Definition same_profile_id (u : string) (p : Profile) : bool :=
  String.eqb (id p) u.

Section Services.
Variable env : Env.

(** Modelled from the spec: create-identity of the IdentityGateway
    (section 6: Identity or error). An error leaves the store as it is; a
    created user is a new row carrying the email and the metadata. *)
Definition auth_signUp (email password : option string)
           (data : list (string * string)) : Action AuthResponse :=
  fun st =>
    let st' := emit (CallSignUp email password data (on_signUp env)) st in
    match on_signUp env with
    | SignUpRejects authError =>
        (Continue {| user := None; error := Some authError |}, st')
    | SignUpNoUser =>
        (Continue {| user := None; error := None |}, st')
    | SignUpCreates userId =>
        let u := {| identity_id := userId; identity_email := email;
                    identity_data := data |} in
        (Continue {| user := Some u; error := None |},
         {| world := {| identities := identities (world st') ++ [u];
                        profiles := profiles (world st') |};
            log := log st' |})
    end.

(** Modelled from the spec: create-profile of the ProfileStore (section 6:
    ok or error). An error leaves the table as it is. *)
Definition from_insert (table : string) (row : Profile)
  : Action (option string) :=
  fun st =>
    let st' := emit (CallInsert table row (on_insert env)) st in
    match on_insert env with
    | Some profileError => (Continue (Some profileError), st')
    | None =>
        (Continue None,
         {| world := {| identities := identities (world st');
                        profiles := profiles (world st') ++ [row] |};
            log := log st' |})
    end.

(** Modelled from the spec: delete-identity of the IdentityGateway
    (section 6: ok or error). An error leaves the identity in place. *)
Definition auth_admin_deleteUser (userId : string) : Action (option string) :=
  fun st =>
    let st' := emit (CallDeleteUser userId (on_deleteUser env)) st in
    match on_deleteUser env with
    | Some e => (Continue (Some e), st')
    | None =>
        (Continue None,
         {| world :=
              {| identities :=
                   filter (fun i => negb (same_id userId i))
                          (identities (world st'));
                 profiles := profiles (world st') |};
            log := log st' |})
    end.

(** [signup] (lines 150-189). *)
Definition signup (formData : FormData) : Action unit :=
  let email := FormData_get formData "email" in
  let password := FormData_get formData "password" in
  (* Step 1: Create auth user *)
  authData <- auth_signUp email password [("role", "coach")] ;;
  match error authData with
  | Some authError =>
      console_error "Signup Error:" authError ;;
      redirect "/login?message=Could not create account."
  | None =>
      match truthy (option_map identity_id (user authData)) with
      | None => redirect "/login?message=Account creation failed."
      | Some userId =>
          (* Step 2: Create profile record *)
          profileError <-
            from_insert "profiles"
              {| id := userId; email := email; role := "coach" |} ;;
          match profileError with
          | Some e =>
              console_error "Profile creation error:" e ;;
              (* Cleanup: Remove auth user *)
              _ <- auth_admin_deleteUser userId ;;
              redirect "/login?message=Account setup failed."
          | None =>
              revalidatePath "/" "layout" ;;
              redirect "/dashboard"
          end
      end
  end.

End Services.

(** Running the action on stores [w], with an empty log. *)
Definition run (env : Env) (formData : FormData) (w : World) : Step unit * St :=
  signup env formData {| world := w; log := [] |}.

Definition outcome (env : Env) (formData : FormData) (w : World) : Step unit :=
  fst (run env formData w).

Definition final (env : Env) (formData : FormData) (w : World) : World :=
  world (snd (run env formData w)).

Definition effects (env : Env) (formData : FormData) (w : World)
  : list Effect :=
  log (snd (run env formData w)).

(** Observers of the log. *)
Definition is_delete (e : Effect) : bool :=
  match e with CallDeleteUser _ _ => true | _ => false end.

Definition is_insert (e : Effect) : bool :=
  match e with CallInsert _ _ _ => true | _ => false end.

Definition is_console (e : Effect) : bool :=
  match e with ConsoleError _ _ => true | _ => false end.

Definition inserted_rows (l : list Effect) : list Profile :=
  flat_map (fun e => match e with
                     | CallInsert _ row None => [row]
                     | _ => []
                     end) l.

Definition console (env : Env) (formData : FormData) (w : World)
  : list Effect :=
  filter is_console (effects env formData w).

Definition count_identities (u : string) (w : World) : nat :=
  length (filter (same_id u) (identities w)).

Definition count_profiles (u : string) (w : World) : nat :=
  length (filter (same_profile_id u) (profiles w)).

(** The provider hands out non-empty user ids (UUIDs). *)
Definition issues_ids (env : Env) : Prop :=
  match on_signUp env with
  | SignUpCreates userId => userId <> ""
  | _ => True
  end.

(** Identity created, profile insert failed, compensating delete failed. *)
Definition compensation_failed (env : Env) : Prop :=
  (exists userId, on_signUp env = SignUpCreates userId /\ userId <> "") /\
  on_insert env <> None /\ on_deleteUser env <> None.

(** The rows [signup] writes for user [userId]. *)
Definition new_identity (fd : FormData) (userId : string) : Identity :=
  {| identity_id := userId;
     identity_email := FormData_get fd "email";
     identity_data := [("role", "coach")] |}.

Definition new_profile (fd : FormData) (userId : string) : Profile :=
  {| id := userId; email := FormData_get fd "email"; role := "coach" |}.

(** The paths of [signup], told apart by the answers of the services. *)
Inductive Path (env : Env) : Type :=
| PathRejected (e : string) (H : on_signUp env = SignUpRejects e)
| PathNoUser (H : on_signUp env = SignUpNoUser)
| PathEmptyId (H : on_signUp env = SignUpCreates "")
| PathCreated (userId : string) (H : on_signUp env = SignUpCreates userId)
              (Hne : userId <> "") (Hins : on_insert env = None)
| PathCleanedUp (userId e : string)
                (H : on_signUp env = SignUpCreates userId)
                (Hne : userId <> "") (Hins : on_insert env = Some e)
                (Hdel : on_deleteUser env = None)
| PathOrphaned (userId e e' : string)
               (H : on_signUp env = SignUpCreates userId)
               (Hne : userId <> "") (Hins : on_insert env = Some e)
               (Hdel : on_deleteUser env = Some e').

End Signup.

(** ** ClientDataComponent: realtime refetch *)

Module Realtime.
Import Js.

Record Row : Type := {
  row_id : Z;
  created_at : Z;
  body : string
}.

(** The remote table [your_table]: its rows, and whether the service
    answers a select with an error. *)
Record Table : Type := {
  rows : list Row;
  select_error : option string
}.

Inductive Operation : Type := INSERT | UPDATE | DELETE.

(** The payload of a [postgres_changes] message. *)
Record ChangeEvent : Type := {
  eventType : Operation;
  schema : string;
  table : string;
  new : option Row;
  old : option Row
}.

Inductive Line : Type :=
| ConsoleLog (label : string) (payload : ChangeEvent)
| ConsoleError (label err : string).

(** The React state of the component, and the browser console. *)
Record Component : Type := {
  data : option (list Row);
  loading : bool;
  console : list Line
}.

(** [useState(null)], [useState(true)]. *)
Definition initial : Component :=
  {| data := None; loading := true; console := [] |}.

(** [.order("created_at", { ascending: false })]. *)
Fixpoint insert_desc (r : Row) (l : list Row) : list Row :=
  match l with
  | [] => [r]
  | x :: l' =>
      if (created_at x <? created_at r)%Z then r :: x :: l'
      else x :: insert_desc r l'
  end.

Definition order_desc (l : list Row) : list Row :=
  fold_right insert_desc [] l.

(** [supabase.from("your_table").select("*").order(...)]:
    [{ data, error }]. *)
Definition select_ordered (db : Table) : option (list Row) * option string :=
  match select_error db with
  | Some e => (None, Some e)
  | None => (Some (order_desc (rows db)), None)
  end.

(** [fetchData] (lines 230-243). *)
Definition fetchData (db : Table) (c : Component) : Component :=
  match select_ordered db with
  | (_, Some error) =>
      {| data := data c;
         loading := loading c;
         console := console c ++ [ConsoleError "Error fetching data:" error] |}
  | (fetchedData, None) =>
      {| data := fetchedData; loading := false; console := console c |}
  end.

(** The callback given to [.on("postgres_changes", ...)] (lines 252-255). *)
Definition onEvent (db : Table) (payload : ChangeEvent) (c : Component)
  : Component :=
  fetchData db
    {| data := data c;
       loading := loading c;
       console := console c ++ [ConsoleLog "Real-time update:" payload] |}.

(** The filter [{ event: "*", schema: "public", table: "your_table" }]. *)
Definition matches (ev : ChangeEvent) : bool :=
  String.eqb (schema ev) "public" && String.eqb (table ev) "your_table".

(** Delivery of one message of the channel to the subscription. *)
Definition deliver (db : Table) (ev : ChangeEvent) (c : Component)
  : Component :=
  if matches ev then onEvent db ev c else c.

(** The effect body up to the subscription: the first [fetchData()]. *)
Definition mount (db : Table) : Component := fetchData db initial.

End Realtime.

(** ** Concrete requests and service behaviours used as test points *)

Module Scenario.
Import Js.

Definition session_name : string := "sb-access-token".

(** GET https://app.example.com/dashboard?tab=1#top with a stale token. *)
Definition dashboard_request : Middleware.NextRequest :=
  {| Middleware.cookies :=
       [{| Middleware.rc_name := session_name;
           Middleware.rc_value := "expired" |}];
     Middleware.nextUrl :=
       {| Middleware.protocol := "https:";
          Middleware.username := "";
          Middleware.password := "";
          Middleware.hostname := "app.example.com";
          Middleware.port := "";
          Middleware.pathname := "/dashboard";
          Middleware.search := "?tab=1";
          Middleware.hash := "#top" |} |}.

(** The auth client finds the token expired: it clears the cookie through
    [setAll] and returns no user. *)
Definition logged_out_client : Middleware.AuthClient :=
  fun _ =>
    Returned (None, [[IdentityGateway.clearing_cookie session_name]]).

Definition coach : Middleware.User :=
  {| Middleware.user_id := "U1"; Middleware.user_email := Some "a@x.com" |}.

Definition signed_in_client : Middleware.AuthClient :=
  fun _ => Returned (Some coach, []).

(** A reachable provider that rejects every token. *)
Definition rejecting_provider : IdentityGateway.IdentityProvider :=
  {| IdentityGateway.session_cookie := session_name;
     IdentityGateway.reachable := true;
     IdentityGateway.verify := fun _ => IdentityGateway.TokenRejected |}.

(** signup("a@x.com", "pw") on empty stores. *)
Definition form : Signup.FormData := [("email", "a@x.com"); ("password", "pw")].

Definition empty_world : Signup.World :=
  {| Signup.identities := []; Signup.profiles := [] |}.

(** Identity U1 and its profile are both created. *)
Definition env_success : Signup.Env :=
  {| Signup.on_signUp := Signup.SignUpCreates "U1";
     Signup.on_insert := None;
     Signup.on_deleteUser := None |}.

(** Identity U2 is created, the profile insert fails, the delete works. *)
Definition env_compensated : Signup.Env :=
  {| Signup.on_signUp := Signup.SignUpCreates "U2";
     Signup.on_insert := Some "insert failed";
     Signup.on_deleteUser := None |}.

(** Identity U2 is created, the profile insert fails, the delete fails. *)
Definition env_orphan : Signup.Env :=
  {| Signup.on_signUp := Signup.SignUpCreates "U2";
     Signup.on_insert := Some "insert failed";
     Signup.on_deleteUser := Some "delete failed" |}.

(** The provider reports success without a user. *)
Definition env_no_user : Signup.Env :=
  {| Signup.on_signUp := Signup.SignUpNoUser;
     Signup.on_insert := None;
     Signup.on_deleteUser := None |}.

End Scenario.

(** ** Reading cookie jars *)

Module Jar.
Import Middleware.

(** The two loops of [setAll], on the jars alone. *)
Definition set_request_cookies (b : list CookieToSet)
           (jar : list RequestCookie) : list RequestCookie :=
  fold_left (fun jar c => RequestCookies_set (name c) (value c) jar) b jar.

Definition set_response_cookies (b : list CookieToSet)
           (jar : list CookieToSet) : list CookieToSet :=
  fold_left (fun jar c => ResponseCookies_set c jar) b jar.


(** The last mutation of [b] that names cookie [n]. *)
Fixpoint last_named (n : string) (b : list CookieToSet)
  : option CookieToSet :=
  match b with
  | [] => None
  | c :: b' =>
      match last_named n b' with
      | Some d => Some d
      | None => if String.eqb (name c) n then Some c else None
      end
  end.

End Jar.

(** ** Further test points *)

Module Cases.
Import Js.

Definition plain : Middleware.CookieOptions :=
  {| Middleware.maxAge := Some 3600%Z;
     Middleware.path := Some "/";
     Middleware.httpOnly := true;
     Middleware.secure := true;
     Middleware.sameSite := Some "lax" |}.

Definition cookie (n v : string) : Middleware.CookieToSet :=
  {| Middleware.name := n; Middleware.value := v;
     Middleware.options := plain |}.

(** GET https://app.example.com/about with a theme cookie and a token. *)
Definition about_request : Middleware.NextRequest :=
  {| Middleware.cookies :=
       [{| Middleware.rc_name := "theme"; Middleware.rc_value := "dark" |};
        {| Middleware.rc_name := "sb-access-token";
           Middleware.rc_value := "t0" |}];
     Middleware.nextUrl :=
       Middleware.set_pathname
         (Middleware.nextUrl Scenario.dashboard_request) "/about" |}.

(** GET https://app.example.com/dashboard/settings, same jar as above. *)
Definition settings_request : Middleware.NextRequest :=
  {| Middleware.cookies := Middleware.cookies about_request;
     Middleware.nextUrl :=
       Middleware.set_pathname
         (Middleware.nextUrl Scenario.dashboard_request)
         "/dashboard/settings" |}.

(** The auth client renews the session in two [setAll] calls: token and
    refresh token first, then the token once more. *)
Definition first_batch : list Middleware.CookieToSet :=
  [cookie "sb-access-token" "t1"; cookie "sb-refresh-token" "r1"].

Definition second_batch : list Middleware.CookieToSet :=
  [cookie "sb-access-token" "t2"].

Definition renewing_client : Middleware.AuthClient :=
  fun _ => Returned (Some Scenario.coach, [first_batch; second_batch]).

End Cases.

(** ** Observers used by the further properties *)

Module Observe.

Definition is_signUp (e : Signup.Effect) : bool :=
  match e with Signup.CallSignUp _ _ _ _ => true | _ => false end.

(** Delivery of a sequence of channel messages, in arrival order. *)
Definition deliver_all (db : Realtime.Table) (evs : list Realtime.ChangeEvent)
           (c : Realtime.Component) : Realtime.Component :=
  fold_left (fun c ev => Realtime.deliver db ev c) evs c.


(** Newest first. *)
Definition newer_or_equal (a b : Realtime.Row) : Prop :=
  (Realtime.created_at b <= Realtime.created_at a)%Z.

(** Two forms for the same email with different passwords, and a form
    without any field. *)
Definition form_other_password : Signup.FormData :=
  [("email", "a@x.com"); ("password", "another")].

Definition r1 : Realtime.Row :=
  {| Realtime.row_id := 1; Realtime.created_at := 5; Realtime.body := "a" |}.
Definition r2 : Realtime.Row :=
  {| Realtime.row_id := 2; Realtime.created_at := 9; Realtime.body := "b" |}.
Definition r3 : Realtime.Row :=
  {| Realtime.row_id := 3; Realtime.created_at := 1; Realtime.body := "c" |}.

Definition table_ok : Realtime.Table :=
  {| Realtime.rows := [r1; r2; r3]; Realtime.select_error := None |}.

Definition table_down : Realtime.Table :=
  {| Realtime.rows := [r1; r2; r3];
     Realtime.select_error := Some "connection lost" |}.

Definition insert_event : Realtime.ChangeEvent :=
  {| Realtime.eventType := Realtime.INSERT;
     Realtime.schema := "public";
     Realtime.table := "your_table";
     Realtime.new := Some r2;
     Realtime.old := None |}.

Definition foreign_event : Realtime.ChangeEvent :=
  {| Realtime.eventType := Realtime.DELETE;
     Realtime.schema := "public";
     Realtime.table := "other_table";
     Realtime.new := None;
     Realtime.old := Some r1 |}.

End Observe.

(** ** The other server actions and the server component *)

Module ServerActions.
Import Js.

(** A row of [your_table], with the columns the code names. *)
Record Item : Type := {
  id : string;
  user_id : string;
  name : option string;
  created_at : Z;
  updated_at : option string
}.

(** Rows of [primary_table] (its [id] column) and of [related_table] (its
    [primary_id] column); the other columns are elided in the source. *)
Record Primary : Type := { primary_key : string }.
Record Related : Type := { primary_id : string }.

Record World : Type := {
  your_table : list Item;
  primary_table : list Primary;
  related_table : list Related
}.

(** The statements the actions send to the database. *)
Inductive Statement : Type :=
| InsertItem (owner : string) (item_name : option string)
| UpdateItem (item_name : option string) (stamp : string)
             (eq_id eq_user_id : string)
| DeleteItem (eq_id eq_user_id : string)
| SelectItems (eq_user_id : string)
| InsertPrimary
| InsertRelated (key : string)
| DeletePrimary (eq_id : string).

(** The answers of the outside during one run: the user of the session,
    the error (if any) the database gives to a statement, what the database
    and the clock generate, the answers of the two auth calls; and two
    messages fixed by libraries: the one of the error that [redirect]
    throws, and the one [.single()] answers when the statement did not
    return exactly one row. *)
Record Env : Type := {
  who : option string;
  fails : Statement -> option string;
  fresh_id : string;
  clock : Z;
  now_iso : string;
  signIn_error : option string;
  signOut_error : option string;
  redirect_message : string;
  not_single_message : string
}.

Inductive Effect : Type :=
| CallGetUser (answer : option string)
| CallSignIn (email password : option string) (error : option string)
| CallSignOut (error : option string)
| Query (s : Statement) (error : option string)
| CallRevalidatePath (path : string) (type : option string)
| ConsoleError (label message : string).

Record St : Type := {
  world : World;
  log : list Effect
}.

(** What can be thrown: the error [redirect(target)] throws, or an
    [Error] with a message. *)
Inductive Exn : Type :=
| RedirectError (target : string)
| JsError (message : string).

Inductive Result (A : Type) : Type :=
| Ok (a : A)
| Raise (x : Exn).
Arguments Raise {A} x.

Definition Action (A : Type) : Type := St -> Result A * St.

Definition ret {A : Type} (a : A) : Action A := fun st => (Ok a, st).

Definition bind {A B : Type} (m : Action A) (k : A -> Action B) : Action B :=
  fun st =>
    match m st with
    | (Ok a, st') => k a st'
    | (Raise x, st') => (Raise x, st')
    end.

Definition throw {A : Type} (x : Exn) : Action A := fun st => (Raise x, st).

(** [try { m } catch (error) { handler(error) }]: the handler receives
    whatever was thrown, the error of [redirect] included. *)
Definition try_catch {A : Type} (m : Action A) (handler : Exn -> Action A)
  : Action A :=
  fun st =>
    match m st with
    | (Ok a, st') => (Ok a, st')
    | (Raise x, st') => handler x st'
    end.

Declare Scope server_scope.
Delimit Scope server_scope with server.
Notation "x <- m ;; k" := (bind m (fun x => k))
  (at level 100, m at next level, right associativity) : server_scope.
Notation "m ;; k" := (bind m (fun _ => k))
  (at level 100, right associativity) : server_scope.
Local Open Scope server_scope.

Definition emit (e : Effect) (st : St) : St :=
  {| world := world st; log := log st ++ [e] |}.

Definition redirect {A : Type} (target : string) : Action A :=
  throw (RedirectError target).

Definition console_error (label message : string) : Action unit :=
  fun st => (Ok tt, emit (ConsoleError label message) st).

Definition revalidatePath (path : string) (type : option string)
  : Action unit :=
  fun st => (Ok tt, emit (CallRevalidatePath path type) st).

Definition set_your_table (w : World) (t : list Item) : World :=
  {| your_table := t;
     primary_table := primary_table w;
     related_table := related_table w |}.

Definition set_primary_table (w : World) (t : list Primary) : World :=
  {| your_table := your_table w;
     primary_table := t;
     related_table := related_table w |}.

Definition set_related_table (w : World) (t : list Related) : World :=
  {| your_table := your_table w;
     primary_table := primary_table w;
     related_table := t |}.

(** [.eq("id", rid).eq("user_id", uid)]. *)
Definition selected (rid uid : string) (r : Item) : bool :=
  String.eqb (id r) rid && String.eqb (user_id r) uid.

(** [.eq("user_id", uid)]. *)
Definition owned_by (uid : string) (r : Item) : bool :=
  String.eqb (user_id r) uid.

(** [.order(column, { ascending: false })] on any row type. *)
Fixpoint insert_desc_by {A : Type} (key : A -> Z) (r : A) (l : list A)
  : list A :=
  match l with
  | [] => [r]
  | x :: l' =>
      if (key x <? key r)%Z then r :: x :: l'
      else x :: insert_desc_by key r l'
  end.

Definition order_desc_by {A : Type} (key : A -> Z) (l : list A) : list A :=
  fold_right (insert_desc_by key) [] l.

(** What a server component returns. *)
Inductive View : Type :=
| ErrorView (text : string)
| ItemsView (keys : list string).

Section Services.
Variable env : Env.

(** [(error as Error).message] in a catch clause. *)
Definition message_of (x : Exn) : string :=
  match x with
  | RedirectError _ => redirect_message env
  | JsError message => message
  end.

Definition auth_getUser : Action (option string) :=
  fun st => (Ok (who env), emit (CallGetUser (who env)) st).

Definition auth_signInWithPassword (email password : option string)
  : Action (option string) :=
  fun st =>
    (Ok (signIn_error env),
     emit (CallSignIn email password (signIn_error env)) st).

Definition auth_signOut : Action (option string) :=
  fun st => (Ok (signOut_error env), emit (CallSignOut (signOut_error env)) st).

(** A statement the database refuses changes nothing. The definitions
    below give the effect of each statement when it is accepted. *)
Definition run_statement {A : Type} (s : Statement)
           (accepted : St -> (A + string) * St) : Action (A + string) :=
  fun st =>
    match fails env s with
    | Some e => (Ok (inr e), emit (Query s (Some e)) st)
    | None =>
        match accepted st with
        | (inl a, st') => (Ok (inl a), emit (Query s None) st')
        | (inr e, st') => (Ok (inr e), emit (Query s (Some e)) st')
        end
    end.

Definition with_world (st : St) (w : World) : St :=
  {| world := w; log := log st |}.

(** [from("your_table").insert({ user_id, name }).select().single()]: the
    database gives the row an id and a creation time and returns it. *)
Definition insert_item (owner : string) (item_name : option string)
  : Action (Item + string) :=
  run_statement (InsertItem owner item_name)
    (fun st =>
       let row := {| id := fresh_id env; user_id := owner;
                     name := item_name; created_at := clock env;
                     updated_at := None |} in
       (inl row,
        with_world st
          (set_your_table (world st) (your_table (world st) ++ [row])))).

Definition updated (item_name : option string) (stamp : string) (r : Item)
  : Item :=
  {| id := id r; user_id := user_id r; name := item_name;
     created_at := created_at r; updated_at := Some stamp |}.

(** [from("your_table").update({ name, updated_at }).eq("id", rid)
    .eq("user_id", uid).select().single()]: the selected rows are
    rewritten; [.single()] wants exactly one returned row, and the
    statement is undone with an error otherwise. *)
Definition update_item (item_name : option string) (stamp : string)
           (rid uid : string) : Action (Item + string) :=
  run_statement (UpdateItem item_name stamp rid uid)
    (fun st =>
       match filter (selected rid uid) (your_table (world st)) with
       | [r] =>
           (inl (updated item_name stamp r),
            with_world st
              (set_your_table (world st)
                 (map (fun x => if selected rid uid x
                                then updated item_name stamp x else x)
                      (your_table (world st)))))
       | _ => (inr (not_single_message env), st)
       end).

(** [from("your_table").delete().eq("id", rid).eq("user_id", uid)]. *)
Definition delete_item (rid uid : string) : Action (unit + string) :=
  run_statement (DeleteItem rid uid)
    (fun st =>
       (inl tt,
        with_world st
          (set_your_table (world st)
             (filter (fun x => negb (selected rid uid x))
                     (your_table (world st)))))).

(** [from("your_table").select("*").eq("user_id", uid)
    .order("created_at", { ascending: false })]. *)
Definition select_items (uid : string) : Action (list Item + string) :=
  run_statement (SelectItems uid)
    (fun st =>
       (inl (order_desc_by created_at
               (filter (owned_by uid) (your_table (world st)))),
        st)).

(** [from("primary_table").insert({ ... }).select().single()]. *)
Definition insert_primary : Action (Primary + string) :=
  run_statement InsertPrimary
    (fun st =>
       let row := {| primary_key := fresh_id env |} in
       (inl row,
        with_world st
          (set_primary_table (world st)
             (primary_table (world st) ++ [row])))).

(** [from("related_table").insert({ primary_id, ... })]. *)
Definition insert_related (key : string) : Action (unit + string) :=
  run_statement (InsertRelated key)
    (fun st =>
       (inl tt,
        with_world st
          (set_related_table (world st)
             (related_table (world st) ++ [{| primary_id := key |}])))).

(** [from("primary_table").delete().eq("id", key)]. *)
Definition delete_primary (key : string) : Action (unit + string) :=
  run_statement (DeletePrimary key)
    (fun st =>
       (inl tt,
        with_world st
          (set_primary_table (world st)
             (filter (fun p => negb (String.eqb (primary_key p) key))
                     (primary_table (world st)))))).

(** [login] (lines 191-208). *)
Definition login (formData : Signup.FormData) : Action unit :=
  let email := Signup.FormData_get formData "email" in
  let password := Signup.FormData_get formData "password" in
  error <- auth_signInWithPassword email password ;;
  match error with
  | Some _ => redirect "/login?message=Could not authenticate user"
  | None =>
      revalidatePath "/" (Some "layout") ;;
      redirect "/dashboard"
  end.

(** [logout] (lines 210-214). *)
Definition logout : Action unit :=
  _ <- auth_signOut ;;
  redirect "/login".

(** [createRecord] (lines 309-334). *)
Definition createRecord (formData : Signup.FormData) : Action unit :=
  user <- auth_getUser ;;
  match user with
  | None => redirect "/login"
  | Some user_id =>
      r <- insert_item user_id (Signup.FormData_get formData "name") ;;
      match r with
      | inr error =>
          console_error "Insert error:" error ;;
          redirect ("/error?message=" ++ error)
      | inl _ =>
          revalidatePath "/dashboard" None ;;
          redirect "/dashboard"
      end
  end.

(** [updateRecord] (lines 339-365). *)
Definition updateRecord (rid : string) (formData : Signup.FormData)
  : Action unit :=
  user <- auth_getUser ;;
  match user with
  | None => redirect "/login"
  | Some user_id =>
      r <- update_item (Signup.FormData_get formData "name") (now_iso env)
             rid user_id ;;
      match r with
      | inr error =>
          console_error "Update error:" error ;;
          redirect ("/error?message=" ++ error)
      | inl _ =>
          revalidatePath "/dashboard" None ;;
          redirect "/dashboard"
      end
  end.

(** [deleteRecord] (lines 370-391). *)
Definition deleteRecord (rid : string) : Action unit :=
  user <- auth_getUser ;;
  match user with
  | None => redirect "/login"
  | Some user_id =>
      r <- delete_item rid user_id ;;
      match r with
      | inr error =>
          console_error "Delete error:" error ;;
          redirect ("/error?message=" ++ error)
      | inl _ =>
          revalidatePath "/dashboard" None ;;
          redirect "/dashboard"
      end
  end.

(** [ServerDataComponent] (lines 274-301). *)
Definition ServerDataComponent : Action View :=
  user <- auth_getUser ;;
  match user with
  | None => redirect "/login"
  | Some user_id =>
      r <- select_items user_id ;;
      match r with
      | inr error =>
          console_error "Database error:" error ;;
          ret (ErrorView "Error loading data")
      | inl data => ret (ItemsView (map id data))
      end
  end.

(** [actionWithErrorHandling] (lines 400-440). *)
Definition actionWithErrorHandling (formData : Signup.FormData)
  : Action unit :=
  try_catch
    ((* Step 1: Create primary record *)
     primary <- insert_primary ;;
     match primary with
     | inr primaryError => throw (JsError primaryError)
     | inl primaryData =>
         let createdRecordId := primary_key primaryData in
         (* Step 2: Create related record *)
         related <- insert_related createdRecordId ;;
         match related with
         | inr relatedError =>
             (* Cleanup: Remove primary record *)
             _ <- delete_primary createdRecordId ;;
             throw (JsError relatedError)
         | inl _ =>
             revalidatePath "/dashboard" None ;;
             redirect "/dashboard"
         end
     end)
    (fun error =>
       console_error "Action error:" (message_of error) ;;
       redirect ("/error?message=" ++ message_of error)).

End Services.

(** Running an action on stores [w], with an empty log. *)
Definition start (w : World) : St := {| world := w; log := [] |}.

Definition statements (l : list Effect) : list Statement :=
  flat_map (fun e => match e with Query s _ => [s] | _ => [] end) l.

(** Newest first, on rows of [your_table]. *)
Definition newer_or_equal (a b : Item) : Prop :=
  (created_at b <= created_at a)%Z.

End ServerActions.

(** ** Test points for the server actions *)

Module Desk.
Import ServerActions.

Definition item (i u n : string) (t : Z) : Item :=
  {| id := i; user_id := u; name := Some n; created_at := t;
     updated_at := None |}.

(** Two rows of Ann and one of Bob. *)
Definition table : list Item :=
  [item "r1" "ann" "plan" 10; item "r2" "bob" "notes" 20;
   item "r3" "ann" "diet" 30].

Definition desk : World :=
  {| your_table := table; primary_table := []; related_table := [] |}.

(** Ann is signed in and the database accepts every statement. *)
Definition ann : Env :=
  {| who := Some "ann";
     fails := fun _ => None;
     fresh_id := "r4";
     clock := 40;
     now_iso := "2025-01-01T00:00:00.000Z";
     signIn_error := None;
     signOut_error := None;
     redirect_message := "NEXT_REDIRECT";
     not_single_message := "JSON object requested, multiple (or no) rows returned" |}.

(** Nobody is signed in. *)
Definition nobody : Env :=
  {| who := None;
     fails := fails ann;
     fresh_id := fresh_id ann;
     clock := clock ann;
     now_iso := now_iso ann;
     signIn_error := Some "Invalid login credentials";
     signOut_error := Some "network";
     redirect_message := redirect_message ann;
     not_single_message := not_single_message ann |}.

(** Ann is signed in; the insert into [related_table] and the cleanup
    delete are both refused. *)
Definition ann_related_down : Env :=
  {| who := who ann;
     fails := fun s => match s with
                       | InsertRelated _ => Some "related failed"
                       | DeletePrimary _ => Some "cleanup failed"
                       | _ => None
                       end;
     fresh_id := "p1";
     clock := clock ann;
     now_iso := now_iso ann;
     signIn_error := None;
     signOut_error := None;
     redirect_message := redirect_message ann;
     not_single_message := not_single_message ann |}.

Definition name_form : Signup.FormData :=
  [("name", "sleep"); ("user_id", "bob")].

End Desk.

(** * Properties *)

(** ** JavaScript helpers *)

Section JsFacts.
Import Js.

Lemma startsWith_iff (s p : string) :
  startsWith s p = true <-> exists rest, s = p ++ rest.
Proof.
  unfold startsWith. revert s.
  induction p as [| c p IH]; intros s.
  - split; [intros _; exists s; reflexivity | intros _; now destruct s].
  - destruct s as [| d s]; simpl.
    + split; [discriminate | intros [rest H]; discriminate].
    + destruct (Ascii.ascii_dec c d) as [-> | Hne].
      * rewrite IH. split; intros [rest H]; exists rest.
        -- now rewrite H.
        -- now inversion H.
      * split; [discriminate |].
        intros [rest H]. inversion H. congruence.
Qed.

Lemma truthy_Some (x : option string) (s : string) :
  truthy x = Some s <-> x = Some s /\ s <> "".
Proof.
  destruct x as [[| c t] |]; simpl; split.
  - discriminate.
  - intros [H Hne]. inversion H. congruence.
  - intros H. inversion H. split; [reflexivity | discriminate].
  - intros [H _]. exact H.
  - discriminate.
  - intros [H _]. discriminate.
Qed.

End JsFacts.

(** ** Middleware *)

Section MiddlewareFacts.
Import Js Middleware.

Lemma setAll_nextUrl (st : Shared) (batch : list CookieToSet) :
  nextUrl (fst (setAll st batch)) = nextUrl (fst st).
Proof.
  unfold setAll. cbn [fst].
  destruct st as [request resp]. cbn [fst]. revert request.
  induction batch as [| c batch IH]; intros request; simpl.
  - reflexivity.
  - now rewrite IH.
Qed.

Lemma fold_setAll_nextUrl (batches : list (list CookieToSet)) (st : Shared) :
  nextUrl (fst (fold_left setAll batches st)) = nextUrl (fst st).
Proof.
  revert st. induction batches as [| b batches IH]; intros st; simpl.
  - reflexivity.
  - rewrite IH. apply setAll_nextUrl.
Qed.

Lemma protected_existsb (p : string) :
  existsb (fun q => startsWith p q) protectedRoutes = true <-> protected p.
Proof.
  unfold protected. rewrite existsb_exists. split.
  - intros [q [Hin Hq]]. apply startsWith_iff in Hq as [rest Hq].
    exists q, rest. now split.
  - intros [q [rest [Hin Hq]]]. exists q. split; [exact Hin |].
    apply startsWith_iff. now exists rest.
Qed.

(** The response of [updateSession] once [getUser] has returned. *)
Lemma updateSession_returned (getUser : AuthClient) (request : NextRequest)
      (user : option User) (batches : list (list CookieToSet)) :
  getUser (cookies request) = Returned (user, batches) ->
  updateSession getUser request =
  Returned
    (if not_ user &&
        existsb (fun p => startsWith (pathname (nextUrl request)) p)
                protectedRoutes
     then NextResponse_redirect (set_pathname (nextUrl request) "/login")
     else snd (fold_left setAll batches (request, NextResponse_next request))).
Proof.
  intros H. unfold updateSession. rewrite H.
  pose proof (fold_setAll_nextUrl batches (request, NextResponse_next request))
    as Hurl.
  destruct (fold_left setAll batches (request, NextResponse_next request))
    as [request' resp'].
  cbn [fst snd] in *. rewrite Hurl.
  now destruct (not_ user && _).
Qed.

Lemma set_cookies_kind (batch : list CookieToSet) (resp : NextResponse) :
  kind (fold_left
          (fun (resp : NextResponse) (c : CookieToSet) =>
             {| kind := kind resp;
                res_cookies := ResponseCookies_set c (res_cookies resp) |})
          batch resp) = kind resp.
Proof.
  revert resp. induction batch as [| c batch IH]; intros resp; simpl.
  - reflexivity.
  - now rewrite IH.
Qed.

Lemma setAll_kind (st : Shared) (batch : list CookieToSet) :
  exists jar, kind (snd (setAll st batch)) = PassThrough jar.
Proof.
  unfold setAll. cbn [snd]. rewrite set_cookies_kind.
  eexists. reflexivity.
Qed.

Lemma fold_setAll_kind (batches : list (list CookieToSet)) (st : Shared) :
  (exists jar, kind (snd st) = PassThrough jar) ->
  exists jar, kind (snd (fold_left setAll batches st)) = PassThrough jar.
Proof.
  revert st. induction batches as [| b batches IH]; intros st Hst; simpl.
  - exact Hst.
  - apply IH. apply setAll_kind.
Qed.

(** A redirect answered by [updateSession] carries no cookie at all. *)
Lemma redirect_has_no_cookies (getUser : AuthClient) (request : NextRequest)
      (resp : NextResponse) (url : NextURL) :
  updateSession getUser request = Returned resp ->
  kind resp = Redirect url ->
  res_cookies resp = [].
Proof.
  intros Hrun Hkind.
  destruct (getUser (cookies request)) as [[user batches] | e] eqn:Hget.
  - rewrite (updateSession_returned _ _ Hget) in Hrun.
    injection Hrun as <-.
    destruct (not_ user && _); [reflexivity |].
    destruct (fold_setAll_kind batches (request, NextResponse_next request))
      as [jar Hjar].
    + eexists. reflexivity.
    + congruence.
  - unfold updateSession in Hrun. rewrite Hget in Hrun. discriminate.
Qed.

End MiddlewareFacts.

Section MiddlewareClaims.
Import Js Middleware IdentityGateway.

(** The route rule as [updateSession] applies it. *)
Lemma decision_after_getUser (getUser : AuthClient) (request : NextRequest)
        (user : option User) (batches : list (list CookieToSet)) :
  getUser (cookies request) = Returned (user, batches) ->
  exists resp,
    updateSession getUser request = Returned resp /\
    (protected (pathname (nextUrl request)) /\ user = None ->
     decision_of resp = RedirectTo "/login") /\
    (~ (protected (pathname (nextUrl request)) /\ user = None) ->
     decision_of resp = Allow).
Proof.
  intros Hget. eexists. split; [apply (updateSession_returned _ _ Hget) |].
  destruct (existsb _ protectedRoutes) eqn:Hp.
  - apply protected_existsb in Hp.
    destruct user as [u |]; cbn [not_ andb].
    + destruct (fold_setAll_kind batches (request, NextResponse_next request))
        as [jar Hjar]; [eexists; reflexivity |].
      unfold decision_of. rewrite Hjar.
      split; [intros [_ H]; discriminate | reflexivity].
    + split; [reflexivity |]. intros Hn. exfalso. apply Hn. now split.
  - rewrite andb_false_r.
    assert (Hnp : ~ protected (pathname (nextUrl request))).
    { intros H. apply protected_existsb in H. congruence. }
    destruct (fold_setAll_kind batches (request, NextResponse_next request))
      as [jar Hjar]; [eexists; reflexivity |].
    unfold decision_of. rewrite Hjar.
    split; [intros [H _]; contradiction | reflexivity].
Qed.

(** C1, evaluated on the code: a request for /dashboard whose stale session
    makes the auth client capture one clearing mutation is answered with a
    redirect to /login, and that redirect does not carry the captured
    mutation. The claim asks for every captured mutation on the returned
    redirect. *)
Theorem redirect_drops_captured_cookies :
  exists resp,
    updateSession Scenario.logged_out_client Scenario.dashboard_request
    = Returned resp /\
    decision_of resp = RedirectTo "/login" /\
    In (clearing_cookie Scenario.session_name)
       (captured [[clearing_cookie Scenario.session_name]]) /\
    ~ In (clearing_cookie Scenario.session_name) (res_cookies resp).
Proof.
  eexists. split; [reflexivity |].
  split; [reflexivity |].
  split; [left; reflexivity |].
  simpl. tauto.
Qed.

(** C4: once [getUser] has returned, the response of [updateSession] is a
    redirect to /login when the path has a protected prefix and the user is
    absent, and lets the request through in every other case. *)
Theorem route_decision (getUser : AuthClient) (request : NextRequest)
        (user : option User) (batches : list (list CookieToSet)) :
  getUser (cookies request) = Returned (user, batches) ->
  exists resp,
    updateSession getUser request = Returned resp /\
    (protected (pathname (nextUrl request)) /\ user = None ->
     decision_of resp = RedirectTo "/login") /\
    (~ (protected (pathname (nextUrl request)) /\ user = None) ->
     decision_of resp = Allow).
Proof.
  exact (@decision_after_getUser getUser request user batches).
Qed.

Lemma route_decision_witness :
  (exists resp,
      updateSession Scenario.logged_out_client Scenario.dashboard_request
      = Returned resp /\
      decision_of resp = RedirectTo "/login") /\
  (exists resp,
      updateSession Scenario.signed_in_client Scenario.dashboard_request
      = Returned resp /\
      decision_of resp = Allow).
Proof.
  split.
  - destruct (@route_decision Scenario.logged_out_client
                Scenario.dashboard_request None
                [[clearing_cookie Scenario.session_name]] eq_refl)
      as [resp [Hrun [Hredirect _]]].
    exists resp. split; [exact Hrun |]. apply Hredirect.
    split; [| reflexivity].
    exists "/dashboard", "". split; [left; reflexivity | reflexivity].
  - destruct (@route_decision Scenario.signed_in_client
                Scenario.dashboard_request (Some Scenario.coach) [] eq_refl)
      as [resp [Hrun [_ Hallow]]].
    exists resp. split; [exact Hrun |]. apply Hallow.
    intros [_ H]. discriminate.
Defined.

(** C9: the redirect answered for a protected path without a user goes to
    the URL of the request with the pathname replaced by /login; protocol,
    credentials, host, port, query string and fragment are those of the
    request. *)
Theorem redirect_keeps_url (getUser : AuthClient) (request : NextRequest)
        (batches : list (list CookieToSet)) :
  getUser (cookies request) = Returned (None, batches) ->
  protected (pathname (nextUrl request)) ->
  exists resp url,
    updateSession getUser request = Returned resp /\
    kind resp = Redirect url /\
    pathname url = "/login" /\
    protocol url = protocol (nextUrl request) /\
    username url = username (nextUrl request) /\
    password url = password (nextUrl request) /\
    hostname url = hostname (nextUrl request) /\
    port url = port (nextUrl request) /\
    search url = search (nextUrl request) /\
    hash url = hash (nextUrl request).
Proof.
  intros Hget Hp. apply protected_existsb in Hp.
  exists (NextResponse_redirect (set_pathname (nextUrl request) "/login")).
  exists (set_pathname (nextUrl request) "/login").
  split.
  - rewrite (updateSession_returned _ _ Hget). rewrite Hp. reflexivity.
  - repeat split.
Qed.

Lemma redirect_keeps_url_witness :
  exists resp url,
    updateSession Scenario.logged_out_client Scenario.dashboard_request
    = Returned resp /\
    kind resp = Redirect url /\
    pathname url = "/login" /\
    protocol url = "https:" /\
    username url = "" /\
    password url = "" /\
    hostname url = "app.example.com" /\
    port url = "" /\
    search url = "?tab=1" /\
    hash url = "#top".
Proof.
  apply (@redirect_keeps_url Scenario.logged_out_client
           Scenario.dashboard_request
           [[clearing_cookie Scenario.session_name]] eq_refl).
  exists "/dashboard", "". split; [left; reflexivity | reflexivity].
Defined.

Lemma validateSession_returns (idp : IdentityProvider)
      (jar : list RequestCookie) :
  exists r, validateSession idp jar = Returned r.
Proof.
  unfold validateSession.
  destruct (find_cookie _ jar) as [token |]; [| eexists; reflexivity].
  destruct (reachable idp); [| eexists; reflexivity].
  destruct (verify idp token); eexists; reflexivity.
Qed.

Lemma validateSession_invalid (idp : IdentityProvider)
      (jar : list RequestCookie) :
  session_invalid idp jar ->
  exists batches,
    validateSession idp jar = Returned (None, batches) /\
    forall c, In c (captured batches) -> is_clearing c.
Proof.
  unfold session_invalid, validateSession.
  destruct (find_cookie _ jar) as [token |].
  - intros [Hdown | Hrej].
    + rewrite Hdown. exists []. split; [reflexivity | intros c []].
    + destruct (reachable idp).
      * rewrite Hrej. eexists. split; [reflexivity |].
        intros c [<- | []]. split; reflexivity.
      * exists []. split; [reflexivity | intros c []].
  - intros _. exists []. split; [reflexivity | intros c []].
Qed.

(** C5: with the identity gateway of the specification behind [getUser],
    [updateSession] returns a response for every request; and when the
    session of the request is absent, expired or rejected, or the provider
    is unreachable, the refresh returns no user together with a mutation set
    that is empty or holds clearing mutations only, and the response is the
    one the route rule gives for an absent user. *)
Theorem invalid_session_is_logged_out (idp : IdentityProvider)
        (request : NextRequest) :
  (exists resp, updateSession (validateSession idp) request = Returned resp) /\
  (session_invalid idp (cookies request) ->
   exists batches resp,
     validateSession idp (cookies request) = Returned (None, batches) /\
     (forall c, In c (captured batches) -> is_clearing c) /\
     updateSession (validateSession idp) request = Returned resp /\
     (protected (pathname (nextUrl request)) ->
      decision_of resp = RedirectTo "/login") /\
     (~ protected (pathname (nextUrl request)) ->
      decision_of resp = Allow)).
Proof.
  split.
  - destruct (validateSession_returns idp (cookies request))
      as [[user batches] Hget].
    eexists. apply (updateSession_returned _ _ Hget).
  - intros Hinv.
    destruct (validateSession_invalid idp (cookies request) Hinv)
      as [batches [Hget Hclear]].
    destruct (decision_after_getUser (validateSession idp) request Hget)
      as [resp [Hrun [Hr Ha]]].
    exists batches, resp.
    split; [exact Hget |]. split; [exact Hclear |]. split; [exact Hrun |].
    split.
    + intros Hp. apply Hr. now split.
    + intros Hn. apply Ha. intros [Hp _]. contradiction.
Qed.

Lemma invalid_session_is_logged_out_witness :
  exists batches resp,
    validateSession Scenario.rejecting_provider
                    (cookies Scenario.dashboard_request)
    = Returned (None, batches) /\
    (forall c, In c (captured batches) -> is_clearing c) /\
    updateSession (validateSession Scenario.rejecting_provider)
                  Scenario.dashboard_request = Returned resp /\
    decision_of resp = RedirectTo "/login".
Proof.
  destruct (invalid_session_is_logged_out Scenario.rejecting_provider
              Scenario.dashboard_request) as [_ H].
  assert (Hinv : session_invalid Scenario.rejecting_provider
                    (cookies Scenario.dashboard_request)).
  { simpl. right. reflexivity. }
  destruct (H Hinv) as [batches [resp [Hget [Hclear [Hrun [Hr _]]]]]].
  exists batches, resp.
  split; [exact Hget |]. split; [exact Hclear |]. split; [exact Hrun |].
  apply Hr. exists "/dashboard", "".
  split; [left; reflexivity | reflexivity].
Defined.

End MiddlewareClaims.

(** ** Signup *)

Section SignupFacts.
Import Js Signup.

Lemma count_snoc {A : Type} (f : A -> bool) (l : list A) (x : A) :
  length (filter f (l ++ [x])) = length (filter f l) + (if f x then 1 else 0).
Proof.
  rewrite filter_app, length_app. simpl. now destruct (f x).
Qed.

(** Deleting user [userId] removes every identity [userId] and no other. *)
Lemma count_after_delete (u userId : string) (l : list Identity) :
  length (filter (same_id u) (filter (fun i => negb (same_id userId i)) l)) =
  if String.eqb userId u then 0 else length (filter (same_id u) l).
Proof.
  induction l as [| i l IH]; simpl.
  - now destruct (String.eqb userId u).
  - destruct (same_id userId i) eqn:E1; destruct (same_id u i) eqn:E2;
      simpl; rewrite ?E2; simpl; rewrite IH;
      destruct (String.eqb userId u) eqn:E3; try reflexivity;
      unfold same_id in E1, E2;
      repeat match goal with
             | H : String.eqb _ _ = true |- _ => apply String.eqb_eq in H
             | H : String.eqb _ _ = false |- _ => apply String.eqb_neq in H
             end; congruence.
Qed.

(** One equation per path through [signup]. *)
Lemma run_rejected (env : Env) (fd : FormData) (w : World) (e : string) :
  on_signUp env = SignUpRejects e ->
  run env fd w =
  (Redirected "/login?message=Could not create account.",
   {| world := w;
      log := [CallSignUp (FormData_get fd "email") (FormData_get fd "password")
                         [("role", "coach")] (SignUpRejects e);
              ConsoleError "Signup Error:" e] |}).
Proof.
  intros H. unfold run, signup, bind, auth_signUp. rewrite H. reflexivity.
Qed.

Lemma run_no_user (env : Env) (fd : FormData) (w : World) :
  on_signUp env = SignUpNoUser ->
  run env fd w =
  (Redirected "/login?message=Account creation failed.",
   {| world := w;
      log := [CallSignUp (FormData_get fd "email") (FormData_get fd "password")
                         [("role", "coach")] SignUpNoUser] |}).
Proof.
  intros H. unfold run, signup, bind, auth_signUp. rewrite H. reflexivity.
Qed.

Lemma run_empty_id (env : Env) (fd : FormData) (w : World) :
  on_signUp env = SignUpCreates "" ->
  run env fd w =
  (Redirected "/login?message=Account creation failed.",
   {| world := {| identities := identities w ++ [new_identity fd ""];
                  profiles := profiles w |};
      log := [CallSignUp (FormData_get fd "email") (FormData_get fd "password")
                         [("role", "coach")] (SignUpCreates "")] |}).
Proof.
  intros H. unfold run, signup, bind, auth_signUp. rewrite H. reflexivity.
Qed.

Lemma run_created (env : Env) (fd : FormData) (w : World) (userId : string) :
  on_signUp env = SignUpCreates userId ->
  userId <> "" ->
  on_insert env = None ->
  run env fd w =
  (Redirected "/dashboard",
   {| world := {| identities := identities w ++ [new_identity fd userId];
                  profiles := profiles w ++ [new_profile fd userId] |};
      log := [CallSignUp (FormData_get fd "email") (FormData_get fd "password")
                         [("role", "coach")] (SignUpCreates userId);
              CallInsert "profiles" (new_profile fd userId) None;
              CallRevalidatePath "/" "layout"] |}).
Proof.
  intros H Hne Hins.
  unfold run, signup, bind, auth_signUp, from_insert. rewrite H, Hins.
  destruct userId as [| c t]; [congruence |]. reflexivity.
Qed.

Lemma run_cleaned_up (env : Env) (fd : FormData) (w : World)
      (userId e : string) :
  on_signUp env = SignUpCreates userId ->
  userId <> "" ->
  on_insert env = Some e ->
  on_deleteUser env = None ->
  run env fd w =
  (Redirected "/login?message=Account setup failed.",
   {| world :=
        {| identities :=
             filter (fun i => negb (same_id userId i))
                    (identities w ++ [new_identity fd userId]);
           profiles := profiles w |};
      log := [CallSignUp (FormData_get fd "email") (FormData_get fd "password")
                         [("role", "coach")] (SignUpCreates userId);
              CallInsert "profiles" (new_profile fd userId) (Some e);
              ConsoleError "Profile creation error:" e;
              CallDeleteUser userId None] |}).
Proof.
  intros H Hne Hins Hdel.
  unfold run, signup, bind, auth_signUp, from_insert, auth_admin_deleteUser.
  rewrite H, Hins.
  destruct userId as [| c t]; [congruence |].
  cbn -[filter]. rewrite Hdel. reflexivity.
Qed.

Lemma run_orphaned (env : Env) (fd : FormData) (w : World)
      (userId e e' : string) :
  on_signUp env = SignUpCreates userId ->
  userId <> "" ->
  on_insert env = Some e ->
  on_deleteUser env = Some e' ->
  run env fd w =
  (Redirected "/login?message=Account setup failed.",
   {| world := {| identities := identities w ++ [new_identity fd userId];
                  profiles := profiles w |};
      log := [CallSignUp (FormData_get fd "email") (FormData_get fd "password")
                         [("role", "coach")] (SignUpCreates userId);
              CallInsert "profiles" (new_profile fd userId) (Some e);
              ConsoleError "Profile creation error:" e;
              CallDeleteUser userId (Some e')] |}).
Proof.
  intros H Hne Hins Hdel.
  unfold run, signup, bind, auth_signUp, from_insert, auth_admin_deleteUser.
  rewrite H, Hins.
  destruct userId as [| c t]; [congruence |].
  cbn -[filter]. rewrite Hdel. reflexivity.
Qed.

Lemma path_of (env : Env) : Path env.
Proof.
  destruct (on_signUp env) as [e | userId |] eqn:H.
  - exact (PathRejected env H).
  - destruct (string_dec userId "") as [-> | Hne].
    + exact (PathEmptyId env H).
    + destruct (on_insert env) as [e |] eqn:Hins.
      * destruct (on_deleteUser env) as [e' |] eqn:Hdel.
        -- exact (PathOrphaned env H Hne Hins Hdel).
        -- exact (PathCleanedUp env H Hne Hins Hdel).
      * exact (PathCreated env H Hne Hins).
  - exact (PathNoUser env H).
Qed.

(** Scenarios A, B and C of the specification, run on the model. *)
Example scenario_A :
  run Scenario.env_success Scenario.form Scenario.empty_world =
  (Redirected "/dashboard",
   {| world := {| identities := [new_identity Scenario.form "U1"];
                  profiles := [new_profile Scenario.form "U1"] |};
      log := [CallSignUp (Some "a@x.com") (Some "pw") [("role", "coach")]
                         (SignUpCreates "U1");
              CallInsert "profiles" (new_profile Scenario.form "U1") None;
              CallRevalidatePath "/" "layout"] |}).
Proof. reflexivity. Qed.

Example scenario_B :
  final Scenario.env_compensated Scenario.form Scenario.empty_world =
  Scenario.empty_world.
Proof. reflexivity. Qed.

Example scenario_C :
  final Scenario.env_orphan Scenario.form Scenario.empty_world =
  {| identities := [new_identity Scenario.form "U2"]; profiles := [] |}.
Proof. reflexivity. Qed.

End SignupFacts.

Section SignupClaims.
Import Js Signup.

(** Case analysis over the paths of [signup], each goal rewritten with the
    run of its path. *)
Ltac by_path env fd w :=
  unfold outcome, final, effects, console;
  destruct (path_of env)
    as [e H | H | H | userId H Hne Hins | userId e H Hne Hins Hdel
        | userId e e' H Hne Hins Hdel];
  [ rewrite (run_rejected env fd w H)
  | rewrite (run_no_user env fd w H)
  | rewrite (run_empty_id env fd w H)
  | rewrite (run_created env fd w H Hne Hins)
  | rewrite (run_cleaned_up env fd w H Hne Hins Hdel)
  | rewrite (run_orphaned env fd w H Hne Hins Hdel) ];
  cbn [fst snd world log].

(** C2, refuted as stated: with identity U2 created and the profile insert
    failing, the run in which the compensating delete fails ends with the
    same redirect and the same console output as the run in which it
    succeeds; the error of the delete is carried nowhere. *)
Lemma compensation_failure_not_distinct :
  compensation_failed Scenario.env_orphan /\
  outcome Scenario.env_orphan Scenario.form Scenario.empty_world =
  outcome Scenario.env_compensated Scenario.form Scenario.empty_world /\
  console Scenario.env_orphan Scenario.form Scenario.empty_world =
  console Scenario.env_compensated Scenario.form Scenario.empty_world /\
  console Scenario.env_orphan Scenario.form Scenario.empty_world =
  [ConsoleError "Profile creation error:" "insert failed"].
Proof.
  split.
  - split; [exists "U2"; split; [reflexivity | discriminate] |].
    split; discriminate.
  - repeat split.
Qed.

(** C2, amended: when identity creation succeeds and profile creation
    fails, signup ends with the redirect to
    /login?message=Account setup failed. and has logged the profile error
    only, whatever the compensating delete answers. *)
Theorem cleanup_result_is_discarded (env : Env) (fd : FormData) (w : World)
        (userId e : string) :
  on_signUp env = SignUpCreates userId ->
  userId <> "" ->
  on_insert env = Some e ->
  outcome env fd w = Redirected "/login?message=Account setup failed." /\
  console env fd w = [ConsoleError "Profile creation error:" e].
Proof.
  intros H Hne Hins. unfold outcome, console, effects.
  destruct (on_deleteUser env) as [e' |] eqn:Hdel.
  - rewrite (run_orphaned env fd w H Hne Hins Hdel). split; reflexivity.
  - rewrite (run_cleaned_up env fd w H Hne Hins Hdel). split; reflexivity.
Qed.

Lemma cleanup_result_is_discarded_witness :
  outcome Scenario.env_orphan Scenario.form Scenario.empty_world =
  Redirected "/login?message=Account setup failed." /\
  console Scenario.env_orphan Scenario.form Scenario.empty_world =
  [ConsoleError "Profile creation error:" "insert failed"].
Proof.
  apply (@cleanup_result_is_discarded Scenario.env_orphan Scenario.form
           Scenario.empty_world "U2" "insert failed").
  - reflexivity.
  - discriminate.
  - reflexivity.
Defined.

(** C3, refuted as stated: the run whose compensating delete fails leaves
    identity U2 without a profile, and returns the very outcome of the run
    whose delete succeeds and leaves nothing; the orphan cannot be told from
    the returned outcome. *)
Lemma orphan_identity_not_detectable :
  count_identities "U2"
    (final Scenario.env_orphan Scenario.form Scenario.empty_world) = 1 /\
  count_profiles "U2"
    (final Scenario.env_orphan Scenario.form Scenario.empty_world) = 0 /\
  count_identities "U2"
    (final Scenario.env_compensated Scenario.form Scenario.empty_world) = 0 /\
  count_profiles "U2"
    (final Scenario.env_compensated Scenario.form Scenario.empty_world) = 0 /\
  outcome Scenario.env_orphan Scenario.form Scenario.empty_world =
  outcome Scenario.env_compensated Scenario.form Scenario.empty_world.
Proof.
  repeat split.
Qed.

(** C3, amended: for a provider that issues non-empty ids and for every
    id [u] that neither store holds at the start, after signup either
    exactly one identity and exactly one profile with id [u] exist, or none
    of either exists, or the compensating delete has failed, and then the
    outcome is not the success redirect. *)
Theorem saga_atomicity (env : Env) (fd : FormData) (w : World) (u : string) :
  issues_ids env ->
  count_identities u w = 0 ->
  count_profiles u w = 0 ->
  (count_identities u (final env fd w) = 1 /\
   count_profiles u (final env fd w) = 1) \/
  (count_identities u (final env fd w) = 0 /\
   count_profiles u (final env fd w) = 0) \/
  (compensation_failed env /\ outcome env fd w <> Redirected "/dashboard").
Proof.
  intros Hids Hi Hp. destruct w as [ids ps].
  by_path env fd {| identities := ids; profiles := ps |};
    unfold count_identities, count_profiles in *;
    cbn [identities profiles] in *.
  - right; left. now split.
  - right; left. now split.
  - unfold issues_ids in Hids. rewrite H in Hids. congruence.
  - rewrite !count_snoc, Hi, Hp.
    unfold same_id, same_profile_id, new_identity, new_profile.
    cbn [identity_id id].
    destruct (String.eqb userId u); [left | right; left]; now split.
  - right; left. rewrite count_after_delete, count_snoc, Hi.
    unfold same_id, new_identity. cbn [identity_id].
    split; [| exact Hp].
    now destruct (String.eqb userId u).
  - right; right. split; [| discriminate].
    split; [exists userId; now split |].
    rewrite Hins, Hdel. split; discriminate.
Qed.

Lemma saga_atomicity_witness :
  count_identities "U1"
    (final Scenario.env_success Scenario.form Scenario.empty_world) = 1 /\
  count_profiles "U1"
    (final Scenario.env_success Scenario.form Scenario.empty_world) = 1.
Proof.
  destruct (@saga_atomicity Scenario.env_success Scenario.form
              Scenario.empty_world "U1")
    as [Hboth | [[Hnone _] | [[_ [Hins _]] _]]].
  - simpl. discriminate.
  - reflexivity.
  - reflexivity.
  - exact Hboth.
  - discriminate Hnone.
  - exfalso. apply Hins. reflexivity.
Defined.

(** Where a delete call can sit in a log of four entries whose last one is
    the only delete. *)
Lemma delete_is_last (a b c d x : Effect) (l1 l2 : list Effect) :
  [a; b; c; d] = (l1 ++ x :: l2)%list ->
  is_delete a = false -> is_delete b = false -> is_delete c = false ->
  is_delete x = true ->
  l1 = [a; b; c] /\ x = d.
Proof.
  intros Heq Ha Hb Hc Hx.
  destruct l1 as [| a' [| b' [| c' [| d' l1]]]]; simpl in Heq;
    injection Heq as; subst; try congruence.
  - now split.
  - destruct l1; discriminate.
Qed.

Lemma no_delete_in (l l1 l2 : list Effect) (x : Effect) :
  l = (l1 ++ x :: l2)%list ->
  filter is_delete l = [] ->
  is_delete x = false.
Proof.
  intros -> Hnone. rewrite filter_app in Hnone. simpl in Hnone.
  destruct (is_delete x); [| reflexivity].
  destruct (filter is_delete l1); discriminate.
Qed.

(** C6: in every run of signup the compensating delete is called at most
    once; it is called exactly when the identity was created and the insert
    of its profile was answered with an error; when identity creation is
    rejected the run ends after the sign-up call and its console line,
    stores untouched; and a delete call always comes after the failed
    insert of the same user. *)
Theorem cleanup_issued_once (env : Env) (fd : FormData) (w : World) :
  length (filter is_delete (effects env fd w)) <= 1 /\
  (length (filter is_delete (effects env fd w)) = 1 <->
   exists userId e,
     on_signUp env = SignUpCreates userId /\
     In (CallInsert "profiles" (new_profile fd userId) (Some e))
        (effects env fd w)) /\
  (forall e, on_signUp env = SignUpRejects e ->
     effects env fd w =
     [CallSignUp (FormData_get fd "email") (FormData_get fd "password")
                 [("role", "coach")] (SignUpRejects e);
      ConsoleError "Signup Error:" e] /\
     outcome env fd w =
     Redirected "/login?message=Could not create account." /\
     final env fd w = w) /\
  (forall l1 l2 userId r,
     effects env fd w = (l1 ++ CallDeleteUser userId r :: l2)%list ->
     exists e,
       In (CallInsert "profiles" (new_profile fd userId) (Some e)) l1).
Proof.
  by_path env fd w; cbn [filter is_delete length].
  - split; [lia |]. split; [| split].
    + split; [discriminate |].
      intros [userId [e' [Hs _]]]. congruence.
    + intros e0 He0. rewrite H in He0. injection He0 as <-.
      repeat split.
    + intros l1 l2 userId r Heq.
      apply no_delete_in in Heq; [discriminate | reflexivity].
  - split; [lia |]. split; [| split].
    + split; [discriminate |].
      intros [userId [e' [Hs _]]]. congruence.
    + intros e0 He0. congruence.
    + intros l1 l2 userId r Heq.
      apply no_delete_in in Heq; [discriminate | reflexivity].
  - split; [lia |]. split; [| split].
    + split; [discriminate |].
      intros [userId [e' [_ [Hin | []]]]]. discriminate.
    + intros e0 He0. congruence.
    + intros l1 l2 userId r Heq.
      apply no_delete_in in Heq; [discriminate | reflexivity].
  - split; [lia |]. split; [| split].
    + split; [discriminate |].
      intros [u [e' [_ [Hin | [Hin | [Hin | []]]]]]]; discriminate.
    + intros e0 He0. congruence.
    + intros l1 l2 u r Heq.
      apply no_delete_in in Heq; [discriminate | reflexivity].
  - split; [lia |]. split; [| split].
    + split; [intros _ | reflexivity].
      exists userId, e. split; [exact H |]. right; left. reflexivity.
    + intros e0 He0. congruence.
    + intros l1 l2 u r Heq.
      apply delete_is_last in Heq as [-> Hx]; try reflexivity.
      injection Hx as -> _.
      exists e. right; left. reflexivity.
  - split; [lia |]. split; [| split].
    + split; [intros _ | reflexivity].
      exists userId, e. split; [exact H |]. right; left. reflexivity.
    + intros e0 He0. congruence.
    + intros l1 l2 u r Heq.
      apply delete_is_last in Heq as [-> Hx]; try reflexivity.
      injection Hx as -> _.
      exists e. right; left. reflexivity.
Qed.

Lemma cleanup_issued_once_witness :
  length (filter is_delete
            (effects Scenario.env_orphan Scenario.form Scenario.empty_world))
  = 1 /\
  exists e,
    In (CallInsert "profiles" (new_profile Scenario.form "U2") (Some e))
       [CallSignUp (Some "a@x.com") (Some "pw") [("role", "coach")]
                   (SignUpCreates "U2");
        CallInsert "profiles" (new_profile Scenario.form "U2")
                   (Some "insert failed");
        ConsoleError "Profile creation error:" "insert failed"].
Proof.
  destruct (cleanup_issued_once Scenario.env_orphan Scenario.form
              Scenario.empty_world) as [_ [[_ Hissued] [_ Horder]]].
  split.
  - apply Hissued. exists "U2", "insert failed".
    split; [reflexivity |]. right; left. reflexivity.
  - apply (Horder _ [] "U2" (Some "delete failed")). reflexivity.
Defined.

(** C8: when the sign-up call reports no error but no user id comes back
    (no user, or an empty id), signup ends with the redirect to
    /login?message=Account creation failed. after the sign-up call alone:
    no insert, no delete, and the profiles table is as before. *)
Theorem missing_user_id_stops_signup (env : Env) (fd : FormData) (w : World) :
  on_signUp env = SignUpNoUser \/ on_signUp env = SignUpCreates "" ->
  outcome env fd w = Redirected "/login?message=Account creation failed." /\
  effects env fd w =
  [CallSignUp (FormData_get fd "email") (FormData_get fd "password")
              [("role", "coach")] (on_signUp env)] /\
  filter is_insert (effects env fd w) = [] /\
  filter is_delete (effects env fd w) = [] /\
  profiles (final env fd w) = profiles w.
Proof.
  intros [H | H]; unfold outcome, effects, final.
  - rewrite (run_no_user env fd w H), H. repeat split.
  - rewrite (run_empty_id env fd w H), H. repeat split.
Qed.

Lemma missing_user_id_stops_signup_witness :
  outcome Scenario.env_no_user Scenario.form Scenario.empty_world =
  Redirected "/login?message=Account creation failed." /\
  effects Scenario.env_no_user Scenario.form Scenario.empty_world =
  [CallSignUp (Some "a@x.com") (Some "pw") [("role", "coach")] SignUpNoUser] /\
  filter is_insert
    (effects Scenario.env_no_user Scenario.form Scenario.empty_world) = [] /\
  filter is_delete
    (effects Scenario.env_no_user Scenario.form Scenario.empty_world) = [] /\
  profiles (final Scenario.env_no_user Scenario.form Scenario.empty_world)
  = [].
Proof.
  apply (missing_user_id_stops_signup Scenario.env_no_user Scenario.form
           Scenario.empty_world).
  left. reflexivity.
Defined.

(** C10: the profiles table after signup is the table before followed by
    the rows signup inserted; every inserted row has the id returned by
    identity creation, the email of the form and the role coach; and a
    signup that ends on /dashboard has inserted exactly that one row. *)
Theorem created_profile_fields (env : Env) (fd : FormData) (w : World) :
  profiles (final env fd w) =
  (profiles w ++ inserted_rows (effects env fd w))%list /\
  (forall p, In p (inserted_rows (effects env fd w)) ->
     on_signUp env = SignUpCreates (id p) /\
     email p = FormData_get fd "email" /\
     role p = "coach") /\
  (outcome env fd w = Redirected "/dashboard" ->
   exists userId,
     on_signUp env = SignUpCreates userId /\
     inserted_rows (effects env fd w) =
     [{| id := userId; email := FormData_get fd "email"; role := "coach" |}]).
Proof.
  by_path env fd w; cbn [inserted_rows flat_map app profiles];
    rewrite ?app_nil_r.
  1-3, 5-6: split; [reflexivity |]; split; [intros p [] | discriminate].
  split; [reflexivity |]. split.
  - intros p [<- | []]. cbn [new_profile id email role]. now split.
  - intros _. exists userId. split; [exact H | reflexivity].
Qed.

Lemma created_profile_fields_witness :
  exists p,
    profiles (final Scenario.env_success Scenario.form Scenario.empty_world)
    = [p] /\
    id p = "U1" /\ email p = Some "a@x.com" /\ role p = "coach".
Proof.
  destruct (created_profile_fields Scenario.env_success Scenario.form
              Scenario.empty_world) as [Hrows [Hfields Hok]].
  destruct (Hok eq_refl) as [userId [Hid Hins]].
  exists {| id := "U1"; email := Some "a@x.com"; role := "coach" |}.
  split; [reflexivity |].
  destruct (Hfields {| id := "U1"; email := Some "a@x.com"; role := "coach" |})
    as [_ [He Hr]].
  - left. reflexivity.
  - split; [reflexivity |]. split; [exact He | exact Hr].
Defined.

End SignupClaims.

(** ** Realtime refetch *)

Section RealtimeClaims.
Import Js Realtime.

(** What a fetch leaves in the React state depends on the table alone when
    the select succeeds. *)
Lemma fetchData_twice (db : Table) (c : Component) :
  data (fetchData db (fetchData db c)) = data (fetchData db c) /\
  loading (fetchData db (fetchData db c)) = loading (fetchData db c).
Proof.
  unfold fetchData.
  destruct (select_ordered db) as [fetched [e |]]; split; reflexivity.
Qed.

(** C7: for every state of the table and every change event, delivering
    the event to the subscription twice, the table unchanged, leaves the
    same data (and the same loading flag) as delivering it once. *)
Theorem refetch_idempotent (db : Table) (ev : ChangeEvent) (c : Component) :
  data (deliver db ev (deliver db ev c)) = data (deliver db ev c) /\
  loading (deliver db ev (deliver db ev c)) = loading (deliver db ev c) /\
  data (onEvent db ev (onEvent db ev c)) = data (onEvent db ev c).
Proof.
  unfold deliver, onEvent, fetchData.
  destruct (matches ev); destruct (select_ordered db) as [fetched [e |]];
    repeat split.
Qed.

End RealtimeClaims.

(** ** Cookie jars through [setAll] *)

Section JarFacts.
Import Js Middleware IdentityGateway Jar.

Lemma find_cookie_set (m n v : string) (jar : list RequestCookie) :
  find_cookie m (RequestCookies_set n v jar) =
  if String.eqb n m then Some v else find_cookie m jar.
Proof.
  induction jar as [| c jar IH]; simpl.
  - reflexivity.
  - destruct (String.eqb_spec (rc_name c) n) as [Hc | Hc]; simpl.
    + rewrite Hc. now destruct (String.eqb n m).
    + destruct (String.eqb_spec (rc_name c) m) as [Hm | Hm].
      * destruct (String.eqb_spec n m); [congruence | reflexivity].
      * exact IH.
Qed.


Lemma find_cookie_after (n : string) (b : list CookieToSet)
      (jar : list RequestCookie) :
  find_cookie n (set_request_cookies b jar) =
  match last_named n b with
  | Some d => Some (value d)
  | None => find_cookie n jar
  end.
Proof.
  unfold set_request_cookies. revert jar.
  induction b as [| c b IH]; intros jar; simpl.
  - reflexivity.
  - rewrite IH. destruct (last_named n b); [reflexivity |].
    rewrite find_cookie_set. now destruct (String.eqb (name c) n).
Qed.


Lemma last_named_app (n : string) (b1 b2 : list CookieToSet) :
  last_named n (b1 ++ b2) =
  match last_named n b2 with
  | Some d => Some d
  | None => last_named n b1
  end.
Proof.
  induction b1 as [| c b1 IH]; simpl.
  - now destruct (last_named n b2).
  - rewrite IH. now destruct (last_named n b2).
Qed.

(** The three components of the pair after one [setAll]. *)
Lemma setAll_request (st : Shared) (b : list CookieToSet) :
  cookies (fst (setAll st b)) = set_request_cookies b (cookies (fst st)).
Proof.
  unfold setAll, set_request_cookies. cbn [fst].
  generalize (fst st). clear st.
  induction b as [| c b IH]; intros r; simpl.
  - reflexivity.
  - now rewrite IH.
Qed.

Lemma set_cookies_jar (b : list CookieToSet) (resp : NextResponse) :
  res_cookies
    (fold_left
       (fun (resp : NextResponse) (c : CookieToSet) =>
          {| kind := kind resp;
             res_cookies := ResponseCookies_set c (res_cookies resp) |})
       b resp) = set_response_cookies b (res_cookies resp).
Proof.
  unfold set_response_cookies. revert resp.
  induction b as [| c b IH]; intros resp; simpl.
  - reflexivity.
  - now rewrite IH.
Qed.

Lemma setAll_response (st : Shared) (b : list CookieToSet) :
  res_cookies (snd (setAll st b)) = set_response_cookies b [] /\
  kind (snd (setAll st b)) = PassThrough (cookies (fst (setAll st b))).
Proof.
  unfold setAll. cbn [fst snd].
  split; [now rewrite set_cookies_jar | now rewrite set_cookies_kind].
Qed.

Lemma fold_setAll_request (batches : list (list CookieToSet)) (st : Shared) :
  cookies (fst (fold_left setAll batches st)) =
  set_request_cookies (captured batches) (cookies (fst st)).
Proof.
  revert st. induction batches as [| b batches IH]; intros st; simpl.
  - reflexivity.
  - rewrite IH, setAll_request. unfold set_request_cookies.
    now rewrite fold_left_app.
Qed.

Lemma fold_setAll_forwarded (batches : list (list CookieToSet)) (st : Shared) :
  kind (snd st) = PassThrough (cookies (fst st)) ->
  kind (snd (fold_left setAll batches st)) =
  PassThrough (cookies (fst (fold_left setAll batches st))).
Proof.
  revert st. induction batches as [| b batches IH]; intros st Hst; simpl.
  - exact Hst.
  - apply IH. apply setAll_response.
Qed.

(** The response of [updateSession] when it lets the request through. *)
Lemma updateSession_passthrough (getUser : AuthClient) (request : NextRequest)
      (user : option User) (batches : list (list CookieToSet)) :
  getUser (cookies request) = Returned (user, batches) ->
  user <> None \/ ~ protected (pathname (nextUrl request)) ->
  updateSession getUser request =
  Returned (snd (fold_left setAll batches (request, NextResponse_next request))).
Proof.
  intros Hget Hallow. rewrite (updateSession_returned _ _ Hget).
  destruct (existsb _ protectedRoutes) eqn:Hp.
  - apply protected_existsb in Hp.
    destruct user as [u |]; [reflexivity |].
    destruct Hallow as [H | H]; [congruence | contradiction].
  - now rewrite andb_false_r.
Qed.

Lemma ResponseCookies_set_names (c : CookieToSet) (jar : list CookieToSet)
      (m : string) :
  In m (map name (ResponseCookies_set c jar)) ->
  m = name c \/ In m (map name jar).
Proof.
  induction jar as [| d jar IH]; simpl.
  - intros [<- | []]. now left.
  - destruct (String.eqb_spec (name d) (name c)) as [Hd | Hd]; simpl.
    + intros [<- | H]; [now left | right; now right].
    + intros [<- | H]; [right; now left |].
      destruct (IH H) as [-> | H']; [now left | right; now right].
Qed.

Lemma ResponseCookies_set_NoDup (c : CookieToSet) (jar : list CookieToSet) :
  NoDup (map name jar) -> NoDup (map name (ResponseCookies_set c jar)).
Proof.
  induction jar as [| d jar IH]; simpl; intros Hjar.
  - constructor; [intros [] | constructor].
  - apply NoDup_cons_iff in Hjar as [Hd Hjar].
    destruct (String.eqb_spec (name d) (name c)) as [Hdc | Hdc]; simpl.
    + constructor; [now rewrite <- Hdc | exact Hjar].
    + constructor; [| now apply IH].
      intros H. apply ResponseCookies_set_names in H as [H | H];
        [congruence | contradiction].
Qed.

Lemma set_response_cookies_NoDup (b jar : list CookieToSet) :
  NoDup (map name jar) -> NoDup (map name (set_response_cookies b jar)).
Proof.
  unfold set_response_cookies. revert jar.
  induction b as [| c b IH]; intros jar Hjar; simpl; [exact Hjar |].
  apply IH. now apply ResponseCookies_set_NoDup.
Qed.

End JarFacts.

Section MiddlewareExtras.
Import Js Middleware IdentityGateway Jar.

Lemma fold_setAll_NoDup (batches : list (list CookieToSet)) (st : Shared) :
  NoDup (map name (res_cookies (snd st))) ->
  NoDup (map name (res_cookies (snd (fold_left setAll batches st)))).
Proof.
  revert st. induction batches as [| b batches IH]; intros st Hst; simpl.
  - exact Hst.
  - apply IH. destruct (setAll_response st b) as [-> _].
    apply set_response_cookies_NoDup. constructor.
Qed.



(** X2: on the pass-through path the request forwarded to the application
    has had every captured mutation applied in order: for every cookie
    name it holds the value of the last captured mutation of that name, and
    the value of the incoming request when no mutation names it. *)
Theorem forwarded_request_last_write_wins
        (getUser : AuthClient) (request : NextRequest) (user : option User)
        (batches : list (list CookieToSet)) :
  getUser (cookies request) = Returned (user, batches) ->
  user <> None \/ ~ protected (pathname (nextUrl request)) ->
  exists resp jar,
    updateSession getUser request = Returned resp /\
    kind resp = PassThrough jar /\
    jar = set_request_cookies (captured batches) (cookies request) /\
    forall n,
      find_cookie n jar =
      match last_named n (captured batches) with
      | Some d => Some (value d)
      | None => find_cookie n (cookies request)
      end.
Proof.
  intros Hget Hallow.
  exists (snd (fold_left setAll batches (request, NextResponse_next request))).
  exists (set_request_cookies (captured batches) (cookies request)).
  split; [apply (updateSession_passthrough _ _ Hget Hallow) |].
  split.
  - rewrite fold_setAll_forwarded by reflexivity.
    now rewrite fold_setAll_request.
  - split; [reflexivity |]. intros n. apply find_cookie_after.
Qed.

Lemma forwarded_request_last_write_wins_witness :
  exists resp jar,
    updateSession Cases.renewing_client Cases.about_request = Returned resp /\
    kind resp = PassThrough jar /\
    find_cookie "sb-access-token" jar = Some "t2" /\
    find_cookie "sb-refresh-token" jar = Some "r1" /\
    find_cookie "theme" jar = Some "dark".
Proof.
  destruct (@forwarded_request_last_write_wins Cases.renewing_client
              Cases.about_request (Some Scenario.coach)
              [Cases.first_batch; Cases.second_batch] eq_refl)
    as [resp [jar [Hrun [Hkind [_ Hget]]]]].
  - left. discriminate.
  - exists resp, jar. split; [exact Hrun |]. split; [exact Hkind |].
    rewrite !Hget. repeat split.
Defined.

(** X3: no response of [updateSession] carries two cookies of the same
    name. *)
Theorem response_cookie_names_unique
        (getUser : AuthClient) (request : NextRequest) (resp : NextResponse) :
  updateSession getUser request = Returned resp ->
  NoDup (map name (res_cookies resp)).
Proof.
  intros Hrun.
  destruct (getUser (cookies request)) as [[user batches] | e] eqn:Hget.
  - rewrite (updateSession_returned _ _ Hget) in Hrun.
    injection Hrun as <-.
    destruct (not_ user && _).
    + constructor.
    + apply fold_setAll_NoDup. constructor.
  - unfold updateSession in Hrun. rewrite Hget in Hrun. discriminate.
Qed.

Lemma response_cookie_names_unique_witness :
  exists resp,
    updateSession
      (fun _ => Returned (Some Scenario.coach,
                          [[Cases.cookie "a" "1"; Cases.cookie "a" "2"]]))
      Cases.about_request = Returned resp /\
    NoDup (map name (res_cookies resp)) /\
    res_cookies resp = [Cases.cookie "a" "2"].
Proof.
  eexists. split; [reflexivity |]. split; [| reflexivity].
  apply (@response_cookie_names_unique
           (fun _ => Returned (Some Scenario.coach,
                               [[Cases.cookie "a" "1"; Cases.cookie "a" "2"]]))
           Cases.about_request).
  reflexivity.
Defined.

(** X4: protection is closed under path extension: when a request without
    user is redirected to /login, so is every request without user whose
    path extends the path of the first. *)
Theorem protection_closed_under_extension
        (getUser : AuthClient) (request request' : NextRequest)
        (batches batches' : list (list CookieToSet))
        (resp : NextResponse) (suffix : string) :
  getUser (cookies request) = Returned (None, batches) ->
  getUser (cookies request') = Returned (None, batches') ->
  pathname (nextUrl request') = pathname (nextUrl request) ++ suffix ->
  updateSession getUser request = Returned resp ->
  decision_of resp = RedirectTo "/login" ->
  exists resp',
    updateSession getUser request' = Returned resp' /\
    decision_of resp' = RedirectTo "/login".
Proof.
  intros Hget Hget' Hpath Hrun Hdec.
  destruct (decision_after_getUser getUser request Hget)
    as [r [Hr [_ Hallow]]].
  rewrite Hrun in Hr. injection Hr as <-.
  assert (Hp : protected (pathname (nextUrl request))).
  { destruct (existsb (fun q => startsWith (pathname (nextUrl request)) q)
                      protectedRoutes) eqn:E.
    - now apply protected_existsb.
    - assert (Hn : ~ (protected (pathname (nextUrl request)) /\
                      @None User = None)).
      { intros [H _]. apply protected_existsb in H. congruence. }
      rewrite (Hallow Hn) in Hdec. discriminate. }
  destruct (decision_after_getUser getUser request' Hget')
    as [resp' [Hrun' [Hredirect _]]].
  exists resp'. split; [exact Hrun' |]. apply Hredirect.
  split; [| reflexivity].
  destruct Hp as [q [rest [Hq Hrest]]].
  exists q, (rest ++ suffix). split; [exact Hq |].
  rewrite Hpath, Hrest.
  clear. induction q as [| c q IH]; simpl; [reflexivity | now rewrite IH].
Qed.

Lemma protection_closed_under_extension_witness :
  exists resp',
    updateSession Scenario.logged_out_client Cases.settings_request
    = Returned resp' /\
    decision_of resp' = RedirectTo "/login".
Proof.
  apply (@protection_closed_under_extension Scenario.logged_out_client
           Scenario.dashboard_request Cases.settings_request
           [[clearing_cookie Scenario.session_name]]
           [[clearing_cookie Scenario.session_name]]
           (NextResponse_redirect
              (set_pathname (nextUrl Scenario.dashboard_request) "/login"))
           "/settings");
    reflexivity.
Defined.

End MiddlewareExtras.

(** ** Signup, further properties *)

Section SignupExtras.
Import Js Signup Observe.

Ltac on_each_path env fd w :=
  destruct (path_of env)
    as [e H | H | H | userId H Hne Hins | userId e H Hne Hins Hdel
        | userId e e' H Hne Hins Hdel];
  [ rewrite (run_rejected env fd w H)
  | rewrite (run_no_user env fd w H)
  | rewrite (run_empty_id env fd w H)
  | rewrite (run_created env fd w H Hne Hins)
  | rewrite (run_cleaned_up env fd w H Hne Hins Hdel)
  | rewrite (run_orphaned env fd w H Hne Hins Hdel) ];
  cbn [fst snd world log].

Lemma filter_none {A : Type} (f : A -> bool) (l : list A) :
  length (filter f l) = 0 -> filter (fun x => negb (f x)) l = l.
Proof.
  induction l as [| x l IH]; simpl; [reflexivity |].
  destruct (f x); simpl; [discriminate |].
  intros H. now rewrite IH.
Qed.

Lemma filter_filter_implied {A : Type} (f g : A -> bool) (l : list A) :
  (forall x, f x = true -> g x = true) ->
  filter f (filter g l) = filter f l.
Proof.
  intros Himp. induction l as [| x l IH]; simpl; [reflexivity |].
  destruct (g x) eqn:Eg; simpl.
  - now rewrite IH.
  - destruct (f x) eqn:Ef; [| exact IH].
    apply Himp in Ef. congruence.
Qed.

Lemma filter_other (u userId : string) (l : list Identity) :
  u <> userId ->
  filter (same_id u) (filter (fun i => negb (same_id userId i)) l) =
  filter (same_id u) l.
Proof.
  intros Hne. apply filter_filter_implied.
  intros i Hi. unfold same_id in *. apply String.eqb_eq in Hi.
  apply negb_true_iff. apply String.eqb_neq. congruence.
Qed.

(** X5: signup always ends in a redirect to one of four targets; it ends
    on /dashboard exactly when the provider created a user with a non-empty
    id and the profile insert succeeded; and revalidatePath("/", "layout")
    is issued on exactly those runs. *)
Theorem signup_outcomes (env : Env) (fd : FormData) (w : World) :
  (outcome env fd w = Redirected "/dashboard" \/
   outcome env fd w = Redirected "/login?message=Could not create account." \/
   outcome env fd w = Redirected "/login?message=Account creation failed." \/
   outcome env fd w = Redirected "/login?message=Account setup failed.") /\
  (outcome env fd w = Redirected "/dashboard" <->
   exists userId,
     on_signUp env = SignUpCreates userId /\ userId <> "" /\
     on_insert env = None) /\
  (In (CallRevalidatePath "/" "layout") (effects env fd w) <->
   outcome env fd w = Redirected "/dashboard").
Proof.
  unfold outcome, effects. on_each_path env fd w.
  - split; [tauto |]. split.
    + split; [discriminate | intros [u [Hu _]]; congruence].
    + split; [intros [Hin | [Hin | []]]; discriminate | discriminate].
  - split; [tauto |]. split.
    + split; [discriminate | intros [u [Hu _]]; congruence].
    + split; [intros [Hin | []]; discriminate | discriminate].
  - split; [tauto |]. split.
    + split; [discriminate | intros [u [Hu [Hn _]]]; congruence].
    + split; [intros [Hin | []]; discriminate | discriminate].
  - split; [tauto |]. split.
    + split; [intros _; now exists userId | reflexivity].
    + split; [reflexivity | intros _; right; right; left; reflexivity].
  - split; [tauto |]. split.
    + split; [discriminate | intros [u [_ [_ Hi]]]; congruence].
    + split; [| discriminate].
      intros [Hin | [Hin | [Hin | [Hin | []]]]]; discriminate.
  - split; [tauto |]. split.
    + split; [discriminate | intros [u [_ [_ Hi]]]; congruence].
    + split; [| discriminate].
      intros [Hin | [Hin | [Hin | [Hin | []]]]]; discriminate.
Qed.

Lemma signup_outcomes_witness :
  outcome Scenario.env_success Scenario.form Scenario.empty_world =
  Redirected "/dashboard" /\
  In (CallRevalidatePath "/" "layout")
     (effects Scenario.env_success Scenario.form Scenario.empty_world).
Proof.
  destruct (signup_outcomes Scenario.env_success Scenario.form
              Scenario.empty_world) as [_ [[_ Hok] [_ Hrev]]].
  assert (Hout : outcome Scenario.env_success Scenario.form
                         Scenario.empty_world = Redirected "/dashboard").
  { apply Hok. exists "U1". repeat split. discriminate. }
  split; [exact Hout | exact (Hrev Hout)].
Defined.

(** X6: signup validates nothing before it calls the provider: whatever
    the form holds, the first effect is the sign-up call with the email and
    password entries of the form (null for a missing entry) and the
    metadata role = coach, and no other sign-up call follows. *)
Theorem signUp_called_first_and_once (env : Env) (fd : FormData) (w : World) :
  exists rest,
    effects env fd w =
    CallSignUp (FormData_get fd "email") (FormData_get fd "password")
               [("role", "coach")] (on_signUp env) :: rest /\
    filter is_signUp rest = [].
Proof.
  unfold effects. on_each_path env fd w; rewrite H; eexists;
    (split; [reflexivity | reflexivity]).
Qed.

(** X7: the password of the form reaches the sign-up call and nothing
    else: two forms with the same email give, under the same answers of the
    services, the same outcome, the same final stores and the same effects
    after the sign-up call. *)
Theorem password_only_reaches_signUp (env : Env) (fd1 fd2 : FormData)
        (w : World) :
  FormData_get fd1 "email" = FormData_get fd2 "email" ->
  outcome env fd1 w = outcome env fd2 w /\
  final env fd1 w = final env fd2 w /\
  tl (effects env fd1 w) = tl (effects env fd2 w).
Proof.
  intros Hemail. unfold outcome, final, effects.
  destruct (path_of env)
    as [e H | H | H | userId H Hne Hins | userId e H Hne Hins Hdel
        | userId e e' H Hne Hins Hdel].
  - rewrite !(run_rejected env _ w H). repeat split.
  - rewrite !(run_no_user env _ w H). repeat split.
  - rewrite !(run_empty_id env _ w H). unfold new_identity.
    rewrite Hemail. repeat split.
  - rewrite !(run_created env _ w H Hne Hins).
    unfold new_identity, new_profile. rewrite Hemail. repeat split.
  - rewrite !(run_cleaned_up env _ w H Hne Hins Hdel).
    unfold new_identity, new_profile. rewrite Hemail. repeat split.
  - rewrite !(run_orphaned env _ w H Hne Hins Hdel).
    unfold new_identity, new_profile. rewrite Hemail. repeat split.
Qed.

Lemma password_only_reaches_signUp_witness :
  final Scenario.env_success Scenario.form Scenario.empty_world =
  final Scenario.env_success form_other_password Scenario.empty_world /\
  effects Scenario.env_success Scenario.form Scenario.empty_world <>
  effects Scenario.env_success form_other_password Scenario.empty_world.
Proof.
  destruct (@password_only_reaches_signUp Scenario.env_success Scenario.form
              form_other_password Scenario.empty_world eq_refl)
    as [_ [Hfinal _]].
  split; [exact Hfinal | discriminate].
Defined.

(** X8: signup leaves the identities of every other user as they were:
    for every id that the provider did not hand out in this run, the
    identities of that id are the same rows in the same order before and
    after. *)
Theorem signup_keeps_other_identities (env : Env) (fd : FormData) (w : World)
        (u : string) :
  on_signUp env <> SignUpCreates u ->
  filter (same_id u) (identities (final env fd w)) =
  filter (same_id u) (identities w).
Proof.
  intros Hu. unfold final. on_each_path env fd w; cbn [identities];
    try reflexivity.
  - rewrite filter_app. simpl. unfold same_id at 2, new_identity.
    cbn [identity_id]. destruct (String.eqb_spec "" u) as [E | E].
    + subst u. congruence.
    + apply app_nil_r.
  - rewrite filter_app. simpl. unfold same_id at 2, new_identity.
    cbn [identity_id]. destruct (String.eqb_spec userId u) as [E | E].
    + subst u. congruence.
    + apply app_nil_r.
  - assert (Hne' : u <> userId) by congruence.
    rewrite (filter_other _ Hne'), filter_app. simpl.
    unfold same_id at 2, new_identity. cbn [identity_id].
    destruct (String.eqb_spec userId u) as [E | E]; [congruence |].
    apply app_nil_r.
  - rewrite filter_app. simpl. unfold same_id at 2, new_identity.
    cbn [identity_id]. destruct (String.eqb_spec userId u) as [E | E].
    + subst u. congruence.
    + apply app_nil_r.
Qed.

Lemma signup_keeps_other_identities_witness :
  filter (same_id "U1")
    (identities
       (final Scenario.env_compensated Scenario.form
          {| identities := [new_identity Scenario.form "U1"];
             profiles := [new_profile Scenario.form "U1"] |})) =
  [new_identity Scenario.form "U1"].
Proof.
  apply (@signup_keeps_other_identities Scenario.env_compensated
           Scenario.form
           {| identities := [new_identity Scenario.form "U1"];
              profiles := [new_profile Scenario.form "U1"] |} "U1").
  discriminate.
Defined.

(** X9: a successful compensation restores the stores: when the identity
    is created, the profile insert fails and the delete succeeds, and no
    identity of that id existed before, both stores end exactly as they
    started. *)
Theorem compensation_restores_stores (env : Env) (fd : FormData) (w : World)
        (userId e : string) :
  on_signUp env = SignUpCreates userId ->
  userId <> "" ->
  on_insert env = Some e ->
  on_deleteUser env = None ->
  count_identities userId w = 0 ->
  final env fd w = w.
Proof.
  intros H Hne Hins Hdel Hfresh. unfold final.
  rewrite (run_cleaned_up env fd w H Hne Hins Hdel). cbn [snd world].
  destruct w as [ids ps]. cbn [identities profiles]. f_equal.
  unfold count_identities in Hfresh. cbn [identities] in Hfresh.
  rewrite filter_app. simpl.
  unfold same_id at 2, new_identity. cbn [identity_id].
  rewrite String.eqb_refl. simpl. rewrite app_nil_r.
  now apply filter_none.
Qed.

Lemma compensation_restores_stores_witness :
  final Scenario.env_compensated Scenario.form
    {| identities := [new_identity Scenario.form "U1"];
       profiles := [new_profile Scenario.form "U1"] |} =
  {| identities := [new_identity Scenario.form "U1"];
     profiles := [new_profile Scenario.form "U1"] |}.
Proof.
  apply (@compensation_restores_stores Scenario.env_compensated
           Scenario.form _ "U2" "insert failed"); try reflexivity.
  discriminate.
Defined.

End SignupExtras.

(** ** Realtime refetch, further properties *)

Section RealtimeExtras.
Import Js Realtime Observe.

Lemma insert_desc_perm (r : Row) (l : list Row) :
  Permutation (r :: l) (insert_desc r l).
Proof.
  induction l as [| x l IH]; simpl.
  - apply Permutation_refl.
  - destruct (created_at x <? created_at r)%Z.
    + apply Permutation_refl.
    + apply perm_trans with (x :: r :: l).
      * apply perm_swap.
      * now apply perm_skip.
Qed.

Lemma order_desc_perm (l : list Row) : Permutation l (order_desc l).
Proof.
  induction l as [| r l IH]; simpl.
  - apply perm_nil.
  - apply perm_trans with (r :: order_desc l).
    + now apply perm_skip.
    + apply insert_desc_perm.
Qed.

Lemma insert_desc_sorted (r : Row) (l : list Row) :
  StronglySorted newer_or_equal l ->
  StronglySorted newer_or_equal (insert_desc r l).
Proof.
  induction l as [| x l IH]; simpl; intros Hs.
  - constructor; [constructor | constructor].
  - apply StronglySorted_inv in Hs as [Hs Hx].
    destruct (Z.ltb_spec (created_at x) (created_at r)) as [Hlt | Hge].
    + constructor.
      * constructor; [exact Hs | exact Hx].
      * constructor; [unfold newer_or_equal; lia |].
        eapply Forall_impl; [| exact Hx].
        unfold newer_or_equal. intros y Hy. lia.
    + constructor; [now apply IH |].
      eapply Permutation_Forall; [apply insert_desc_perm |].
      constructor; [exact Hge | exact Hx].
Qed.

Lemma order_desc_sorted (l : list Row) :
  StronglySorted newer_or_equal (order_desc l).
Proof.
  induction l as [| r l IH]; simpl.
  - constructor.
  - now apply insert_desc_sorted.
Qed.

Lemma deliver_failed (db : Table) (e : string) (ev : ChangeEvent)
      (c : Component) :
  select_error db = Some e ->
  data (deliver db ev c) = data c /\ loading (deliver db ev c) = loading c.
Proof.
  intros He. unfold deliver, onEvent, fetchData, select_ordered.
  rewrite He. destruct (matches ev); split; reflexivity.
Qed.

(** X10: a fetch that succeeds shows every row of the table exactly once,
    newest first, and ends the loading state. *)
Theorem fetch_shows_rows_newest_first (db : Table) (c : Component) :
  select_error db = None ->
  exists l,
    data (fetchData db c) = Some l /\
    Permutation (rows db) l /\
    StronglySorted newer_or_equal l /\
    loading (fetchData db c) = false.
Proof.
  intros Hok. exists (order_desc (rows db)).
  unfold fetchData, select_ordered. rewrite Hok. cbn [data loading].
  split; [reflexivity |].
  split; [apply order_desc_perm |].
  split; [apply order_desc_sorted | reflexivity].
Qed.

Lemma fetch_shows_rows_newest_first_witness :
  exists l,
    data (mount table_ok) = Some l /\
    Permutation [r1; r2; r3] l /\
    StronglySorted newer_or_equal l /\
    loading (mount table_ok) = false.
Proof.
  apply (@fetch_shows_rows_newest_first table_ok initial). reflexivity.
Defined.

(** X11: while the select fails, nothing the component shows changes:
    whatever events arrive, data and loading flag stay as they were; a
    component whose first fetch failed keeps loading = true and no data. *)
Theorem failed_fetch_keeps_state (db : Table) (e : string)
        (evs : list ChangeEvent) (c : Component) :
  select_error db = Some e ->
  data (deliver_all db evs c) = data c /\
  loading (deliver_all db evs c) = loading c /\
  data (deliver_all db evs (mount db)) = None /\
  loading (deliver_all db evs (mount db)) = true.
Proof.
  intros He.
  assert (Hkeep : forall c0,
             data (deliver_all db evs c0) = data c0 /\
             loading (deliver_all db evs c0) = loading c0).
  { unfold deliver_all. induction evs as [| ev evs IH]; intros c0; simpl.
    - split; reflexivity.
    - destruct (IH (deliver db ev c0)) as [-> ->].
      apply (@deliver_failed db e ev c0 He). }
  destruct (Hkeep c) as [Hd Hl]. destruct (Hkeep (mount db)) as [Hd' Hl'].
  split; [exact Hd |]. split; [exact Hl |].
  rewrite Hd', Hl'. unfold mount, fetchData, select_ordered. rewrite He.
  split; reflexivity.
Qed.

Lemma failed_fetch_keeps_state_witness :
  loading (deliver_all table_down [insert_event; insert_event]
                       (mount table_down)) = true /\
  data (deliver_all table_down [insert_event; insert_event]
                    (mount table_down)) = None.
Proof.
  destruct (@failed_fetch_keeps_state table_down "connection lost"
              [insert_event; insert_event] initial eq_refl)
    as [_ [_ [Hd Hl]]].
  split; [exact Hl | exact Hd].
Defined.

Lemma deliver_all_ok_from (db : Table) (evs : list ChangeEvent)
      (c : Component) :
  select_error db = None ->
  data c = Some (order_desc (rows db)) -> loading c = false ->
  data (deliver_all db evs c) = Some (order_desc (rows db)) /\
  loading (deliver_all db evs c) = false.
Proof.
  intros Hok. unfold deliver_all. revert c.
  induction evs as [| ev evs IH]; intros c Hd Hl; simpl.
  - now split.
  - apply IH; unfold deliver, onEvent, fetchData, select_ordered;
      rewrite Hok; now destruct (matches ev).
Qed.

(** X12: on an unchanged table whose select succeeds, any sequence of
    events that holds at least one event of the subscribed table leaves the
    component, whatever its state before, with the rows of the table newest
    first and loading = false. *)
Theorem events_converge_to_table (db : Table) (evs : list ChangeEvent)
        (c : Component) :
  select_error db = None ->
  existsb matches evs = true ->
  data (deliver_all db evs c) = Some (order_desc (rows db)) /\
  loading (deliver_all db evs c) = false.
Proof.
  intros Hok. unfold deliver_all. revert c.
  induction evs as [| ev evs IH]; intros c Hev; simpl in *.
  - discriminate.
  - destruct (matches ev) eqn:Hm.
    + apply (@deliver_all_ok_from db evs (deliver db ev c) Hok);
        unfold deliver, onEvent, fetchData, select_ordered;
        rewrite Hm, Hok; reflexivity.
    + apply IH. exact Hev.
Qed.

Lemma events_converge_to_table_witness :
  data (deliver_all table_ok [foreign_event; insert_event; foreign_event]
                    initial) = Some [r2; r1; r3] /\
  loading (deliver_all table_ok [foreign_event; insert_event; foreign_event]
                       initial) = false.
Proof.
  apply (@events_converge_to_table table_ok
           [foreign_event; insert_event; foreign_event] initial);
    reflexivity.
Defined.


End RealtimeExtras.

(** ** Server actions *)

Section ServerActionFacts.
Import Js ServerActions.

Ltac step_action :=
  unfold createRecord, updateRecord, deleteRecord, ServerDataComponent,
    login, logout, bind, ret, auth_getUser, auth_signInWithPassword,
    auth_signOut, insert_item, update_item, delete_item, select_items,
    run_statement, redirect, throw, console_error, revalidatePath, emit,
    with_world, start.

Lemma filter_unselected {A : Type} (f : A -> bool) (l : list A) :
  filter f l = [] -> filter (fun x => negb (f x)) l = l.
Proof.
  induction l as [| x l IH]; simpl; [reflexivity |].
  destruct (f x); simpl; [discriminate |].
  intros H. now rewrite IH.
Qed.

Lemma map_unselected {A : Type} (f : A -> bool) (g : A -> A) (l : list A) :
  filter f l = [] -> map (fun x => if f x then g x else x) l = l.
Proof.
  induction l as [| x l IH]; simpl; [reflexivity |].
  destruct (f x); simpl; [discriminate |].
  intros H. now rewrite IH.
Qed.

(** The four outcomes of the three record actions for a signed-in user. *)
Lemma createRecord_signed_in (env : Env) (fd : Signup.FormData) (w : World)
      (uid : string) :
  who env = Some uid ->
  createRecord env fd (start w) =
  match fails env (InsertItem uid (Signup.FormData_get fd "name")) with
  | Some e =>
      (Raise (RedirectError ("/error?message=" ++ e)),
       {| world := w;
          log := [CallGetUser (Some uid);
                  Query (InsertItem uid (Signup.FormData_get fd "name"))
                        (Some e);
                  ConsoleError "Insert error:" e] |})
  | None =>
      (Raise (RedirectError "/dashboard"),
       {| world :=
            set_your_table w
              (your_table w ++
               [{| id := fresh_id env; user_id := uid;
                   name := Signup.FormData_get fd "name";
                   created_at := clock env; updated_at := None |}]);
          log := [CallGetUser (Some uid);
                  Query (InsertItem uid (Signup.FormData_get fd "name")) None;
                  CallRevalidatePath "/dashboard" None] |})
  end.
Proof.
  intros Hwho. step_action. rewrite Hwho. cbn [world log app].
  destruct (fails env _) as [e |]; reflexivity.
Qed.

Lemma deleteRecord_signed_in (env : Env) (rid : string) (w : World)
      (uid : string) :
  who env = Some uid ->
  deleteRecord env rid (start w) =
  match fails env (DeleteItem rid uid) with
  | Some e =>
      (Raise (RedirectError ("/error?message=" ++ e)),
       {| world := w;
          log := [CallGetUser (Some uid);
                  Query (DeleteItem rid uid) (Some e);
                  ConsoleError "Delete error:" e] |})
  | None =>
      (Raise (RedirectError "/dashboard"),
       {| world :=
            set_your_table w
              (filter (fun x => negb (selected rid uid x)) (your_table w));
          log := [CallGetUser (Some uid);
                  Query (DeleteItem rid uid) None;
                  CallRevalidatePath "/dashboard" None] |})
  end.
Proof.
  intros Hwho. step_action. rewrite Hwho. cbn [world log app].
  destruct (fails env _) as [e |]; reflexivity.
Qed.

Lemma updateRecord_signed_in (env : Env) (rid : string)
      (fd : Signup.FormData) (w : World) (uid : string) :
  who env = Some uid ->
  updateRecord env rid fd (start w) =
  let s := UpdateItem (Signup.FormData_get fd "name") (now_iso env) rid uid in
  match fails env s with
  | Some e =>
      (Raise (RedirectError ("/error?message=" ++ e)),
       {| world := w;
          log := [CallGetUser (Some uid); Query s (Some e);
                  ConsoleError "Update error:" e] |})
  | None =>
      match filter (selected rid uid) (your_table w) with
      | [r] =>
          (Raise (RedirectError "/dashboard"),
           {| world :=
                set_your_table w
                  (map (fun x =>
                          if selected rid uid x
                          then updated (Signup.FormData_get fd "name")
                                       (now_iso env) x
                          else x)
                       (your_table w));
              log := [CallGetUser (Some uid); Query s None;
                      CallRevalidatePath "/dashboard" None] |})
      | _ =>
          (Raise (RedirectError
                    ("/error?message=" ++ not_single_message env)),
           {| world := w;
              log := [CallGetUser (Some uid);
                      Query s (Some (not_single_message env));
                      ConsoleError "Update error:"
                                   (not_single_message env)] |})
      end
  end.
Proof.
  intros Hwho. step_action. rewrite Hwho. cbn [world log app].
  destruct (fails env _) as [e |]; [reflexivity |].
  destruct (filter (selected rid uid) (your_table w)) as [| r [| r' l]];
    reflexivity.
Qed.

(** X14: without a signed-in user the record actions and the server
    component send no statement to the database: each ends in the redirect
    to /login right after [getUser], all tables as they were. *)
Theorem signed_out_actions_touch_nothing (env : Env) (fd : Signup.FormData)
        (rid : string) (w : World) :
  who env = None ->
  createRecord env fd (start w) =
  (Raise (RedirectError "/login"),
   {| world := w; log := [CallGetUser None] |}) /\
  updateRecord env rid fd (start w) =
  (Raise (RedirectError "/login"),
   {| world := w; log := [CallGetUser None] |}) /\
  deleteRecord env rid (start w) =
  (Raise (RedirectError "/login"),
   {| world := w; log := [CallGetUser None] |}) /\
  ServerDataComponent env (start w) =
  (Raise (RedirectError "/login"),
   {| world := w; log := [CallGetUser None] |}).
Proof.
  intros Hwho. step_action. rewrite Hwho. repeat split.
Qed.

Lemma signed_out_actions_touch_nothing_witness :
  world (snd (deleteRecord Desk.nobody "r1" (start Desk.desk))) = Desk.desk /\
  statements (log (snd (deleteRecord Desk.nobody "r1" (start Desk.desk))))
  = [].
Proof.
  destruct (@signed_out_actions_touch_nothing Desk.nobody Desk.name_form
              "r1" Desk.desk eq_refl) as [_ [_ [Hdel _]]].
  rewrite Hdel. split; reflexivity.
Defined.

(** X15: the row [createRecord] inserts belongs to the user of the
    session, whatever the form holds: its [user_id] is the id [getUser]
    returned and only its name comes from the form; the other rows stay in
    place and the action ends on /dashboard. *)
Theorem createRecord_owner_is_session_user
        (env : Env) (fd : Signup.FormData) (w : World) (uid : string) :
  who env = Some uid ->
  fails env (InsertItem uid (Signup.FormData_get fd "name")) = None ->
  exists row,
    fst (createRecord env fd (start w)) = Raise (RedirectError "/dashboard") /\
    your_table (world (snd (createRecord env fd (start w)))) =
    (your_table w ++ [row])%list /\
    user_id row = uid /\
    name row = Signup.FormData_get fd "name" /\
    id row = fresh_id env.
Proof.
  intros Hwho Hok. rewrite (createRecord_signed_in env fd w Hwho), Hok.
  eexists. cbn [fst snd world set_your_table your_table].
  repeat split.
Qed.

Lemma createRecord_owner_is_session_user_witness :
  exists row,
    your_table (world (snd (createRecord Desk.ann Desk.name_form
                                         (start Desk.desk)))) =
    (Desk.table ++ [row])%list /\
    user_id row = "ann" /\ name row = Some "sleep".
Proof.
  destruct (@createRecord_owner_is_session_user Desk.ann Desk.name_form
              Desk.desk "ann" eq_refl eq_refl)
    as [row [_ [Htable [Hu [Hn _]]]]].
  exists row. split; [exact Htable |]. split; [exact Hu | exact Hn].
Defined.

(** X16: [deleteRecord] removes nothing but rows of the session user with
    the given id: every row of another user or with another id is still in
    the table afterwards, no row is added, the two other tables are
    untouched, and after a run that ends on /dashboard no row of the
    session user with that id is left. *)
Theorem deleteRecord_removes_only_own_rows
        (env : Env) (rid : string) (w : World) (uid : string) :
  who env = Some uid ->
  let st := snd (deleteRecord env rid (start w)) in
  (forall r, In r (your_table w) ->
             user_id r <> uid \/ id r <> rid ->
             In r (your_table (world st))) /\
  (forall r, In r (your_table (world st)) -> In r (your_table w)) /\
  primary_table (world st) = primary_table w /\
  related_table (world st) = related_table w /\
  (fst (deleteRecord env rid (start w)) = Raise (RedirectError "/dashboard") ->
   forall r, In r (your_table (world st)) ->
             ~ (id r = rid /\ user_id r = uid)).
Proof.
  intros Hwho. rewrite (deleteRecord_signed_in env rid w Hwho).
  destruct (fails env _) as [e |]; cbn [fst snd world].
  - split; [auto |]. split; [auto |]. split; [reflexivity |].
    split; [reflexivity |]. intros H. discriminate.
  - cbn [set_your_table your_table primary_table related_table].
    split.
    + intros r Hin Hother. apply filter_In. split; [exact Hin |].
      unfold selected. apply negb_true_iff. apply andb_false_iff.
      destruct Hother as [H | H]; [right | left];
        now apply String.eqb_neq.
    + split; [intros r Hin; now apply filter_In in Hin |].
      split; [reflexivity |]. split; [reflexivity |].
      intros _ r Hin [Hid Hu]. apply filter_In in Hin as [_ Hsel].
      unfold selected in Hsel. rewrite Hid, Hu, !String.eqb_refl in Hsel.
      discriminate.
Qed.

Lemma deleteRecord_removes_only_own_rows_witness :
  your_table (world (snd (deleteRecord Desk.ann "r1" (start Desk.desk)))) =
  [Desk.item "r2" "bob" "notes" 20; Desk.item "r3" "ann" "diet" 30] /\
  In (Desk.item "r2" "bob" "notes" 20)
     (your_table (world (snd (deleteRecord Desk.ann "r1"
                                           (start Desk.desk))))).
Proof.
  split; [reflexivity |].
  destruct (@deleteRecord_removes_only_own_rows Desk.ann "r1" Desk.desk
              "ann" eq_refl) as [Hkeep _].
  apply Hkeep.
  - right; left. reflexivity.
  - left. discriminate.
Defined.

(** X17: deleting a record that is not a record of the session user is
    silent: when no row of the user has the given id and the database
    accepts the statement, the table is unchanged and the action still ends
    on /dashboard. *)
Theorem deleteRecord_of_foreign_id_is_silent
        (env : Env) (rid : string) (w : World) (uid : string) :
  who env = Some uid ->
  fails env (DeleteItem rid uid) = None ->
  filter (selected rid uid) (your_table w) = [] ->
  fst (deleteRecord env rid (start w)) = Raise (RedirectError "/dashboard") /\
  world (snd (deleteRecord env rid (start w))) = w.
Proof.
  intros Hwho Hok Hnone.
  rewrite (deleteRecord_signed_in env rid w Hwho), Hok.
  cbn [fst snd world]. split; [reflexivity |].
  unfold set_your_table. rewrite (filter_unselected _ _ Hnone).
  now destruct w.
Qed.

Lemma deleteRecord_of_foreign_id_is_silent_witness :
  fst (deleteRecord Desk.ann "r2" (start Desk.desk)) =
  Raise (RedirectError "/dashboard") /\
  world (snd (deleteRecord Desk.ann "r2" (start Desk.desk))) = Desk.desk.
Proof.
  apply (@deleteRecord_of_foreign_id_is_silent Desk.ann "r2" Desk.desk "ann");
    reflexivity.
Defined.

(** X18: [updateRecord] rewrites nothing but the name and the update time
    of rows of the session user with the given id: the table keeps its
    length, every row keeps its place, its id, its owner and its creation
    time, and a row of another user or with another id is left exactly as
    it was. *)
Theorem updateRecord_changes_only_own_rows
        (env : Env) (rid : string) (fd : Signup.FormData) (w : World)
        (uid : string) :
  who env = Some uid ->
  let t' := your_table (world (snd (updateRecord env rid fd (start w)))) in
  map id t' = map id (your_table w) /\
  map user_id t' = map user_id (your_table w) /\
  map created_at t' = map created_at (your_table w) /\
  (forall n r, nth_error (your_table w) n = Some r ->
               user_id r <> uid \/ id r <> rid ->
               nth_error t' n = Some r).
Proof.
  intros Hwho. rewrite (updateRecord_signed_in env rid fd w Hwho).
  cbv zeta.
  destruct (fails env _) as [e |]; cbn [snd world];
    [repeat split; auto |].
  destruct (filter (selected rid uid) (your_table w)) as [| r0 [| r1 l]];
    cbn [snd world]; try (repeat split; auto; fail).
  cbn [set_your_table your_table].
  rewrite !map_map.
  split; [| split; [| split]].
  - apply map_ext. intros x. now destruct (selected rid uid x).
  - apply map_ext. intros x. now destruct (selected rid uid x).
  - apply map_ext. intros x. now destruct (selected rid uid x).
  - intros n r Hn Hother. rewrite nth_error_map, Hn. cbn [option_map].
    assert (Hsel : selected rid uid r = false).
    { unfold selected. apply andb_false_iff.
      destruct Hother as [H | H]; [right | left]; now apply String.eqb_neq. }
    now rewrite Hsel.
Qed.

Lemma updateRecord_changes_only_own_rows_witness :
  your_table (world (snd (updateRecord Desk.ann "r1" Desk.name_form
                                       (start Desk.desk)))) =
  [{| id := "r1"; user_id := "ann"; name := Some "sleep"; created_at := 10;
      updated_at := Some "2025-01-01T00:00:00.000Z" |};
   Desk.item "r2" "bob" "notes" 20; Desk.item "r3" "ann" "diet" 30] /\
  nth_error
    (your_table (world (snd (updateRecord Desk.ann "r1" Desk.name_form
                                          (start Desk.desk))))) 1 =
  Some (Desk.item "r2" "bob" "notes" 20).
Proof.
  split; [reflexivity |].
  destruct (@updateRecord_changes_only_own_rows Desk.ann "r1" Desk.name_form
              Desk.desk "ann" eq_refl) as [_ [_ [_ Hkeep]]].
  apply Hkeep; [reflexivity | left; discriminate].
Defined.

(** X19: updating a record that is not a record of the session user is an
    error, unlike deleting it: when no row of the user has the given id
    and the database accepts the statement, the table is unchanged and the
    action ends on /error with the message of [.single()]. *)
Theorem updateRecord_of_foreign_id_is_an_error
        (env : Env) (rid : string) (fd : Signup.FormData) (w : World)
        (uid : string) :
  who env = Some uid ->
  fails env (UpdateItem (Signup.FormData_get fd "name") (now_iso env)
                        rid uid) = None ->
  filter (selected rid uid) (your_table w) = [] ->
  fst (updateRecord env rid fd (start w)) =
  Raise (RedirectError ("/error?message=" ++ not_single_message env)) /\
  world (snd (updateRecord env rid fd (start w))) = w.
Proof.
  intros Hwho Hok Hnone.
  rewrite (updateRecord_signed_in env rid fd w Hwho).
  cbv zeta. rewrite Hok, Hnone. split; reflexivity.
Qed.

Lemma updateRecord_of_foreign_id_is_an_error_witness :
  fst (updateRecord Desk.ann "r2" Desk.name_form (start Desk.desk)) =
  Raise (RedirectError
           "/error?message=JSON object requested, multiple (or no) rows returned") /\
  world (snd (updateRecord Desk.ann "r2" Desk.name_form (start Desk.desk)))
  = Desk.desk.
Proof.
  apply (@updateRecord_of_foreign_id_is_an_error Desk.ann "r2" Desk.name_form
           Desk.desk "ann"); reflexivity.
Defined.

Lemma none_selected (rid uid : string) (l : list Item) :
  (forall r, In r l -> id r <> rid) ->
  filter (selected rid uid) l = [].
Proof.
  induction l as [| x l IH]; simpl; intros Hfresh; [reflexivity |].
  unfold selected at 1.
  destruct (String.eqb_spec (id x) rid) as [Hi | Hi].
  - exfalso. apply (Hfresh x); [now left | exact Hi].
  - simpl. apply IH. intros r Hr. apply Hfresh. now right.
Qed.

(** X20: creating a record and then deleting it gives back the table:
    when the database accepts both statements and the generated id is new
    in the table, [deleteRecord] of that id by the same user after
    [createRecord] leaves all tables as they were before the two actions;
    run by another user instead, the delete leaves the new row in place. *)
Theorem create_then_delete (env env' : Env) (fd : Signup.FormData)
        (w : World) (uid : string) :
  who env = Some uid ->
  fails env (InsertItem uid (Signup.FormData_get fd "name")) = None ->
  (forall r, In r (your_table w) -> id r <> fresh_id env) ->
  let w1 := world (snd (createRecord env fd (start w))) in
  (who env' = Some uid ->
   fails env' (DeleteItem (fresh_id env) uid) = None ->
   world (snd (deleteRecord env' (fresh_id env) (start w1))) = w) /\
  (forall other, who env' = Some other -> other <> uid ->
   world (snd (deleteRecord env' (fresh_id env) (start w1))) = w1).
Proof.
  intros Hwho Hok Hfresh.
  rewrite (createRecord_signed_in env fd w Hwho), Hok. cbn [snd world].
  split.
  - intros Hwho' Hok'.
    rewrite (deleteRecord_signed_in env' _ _ Hwho'), Hok'.
    cbn [snd world set_your_table your_table primary_table related_table].
    rewrite filter_app,
      (filter_unselected _ _ (none_selected uid _ Hfresh)).
    simpl. unfold selected at 1. cbn [id user_id].
    rewrite !String.eqb_refl. simpl. rewrite app_nil_r. now destruct w.
  - intros other Hwho' Hne.
    rewrite (deleteRecord_signed_in env' _ _ Hwho').
    destruct (fails env' _); cbn [snd world]; [reflexivity |].
    unfold set_your_table.
    cbn [your_table primary_table related_table].
    f_equal. apply filter_unselected.
    rewrite filter_app, (none_selected other _ Hfresh). simpl.
    unfold selected at 1. cbn [id user_id].
    assert (Hu : String.eqb uid other = false)
      by (apply String.eqb_neq; congruence).
    now rewrite Hu, andb_false_r.
Qed.

Lemma create_then_delete_witness :
  world (snd (deleteRecord Desk.ann "r4"
                (start (world (snd (createRecord Desk.ann Desk.name_form
                                                 (start Desk.desk)))))))
  = Desk.desk.
Proof.
  destruct (@create_then_delete Desk.ann Desk.ann Desk.name_form Desk.desk
              "ann" eq_refl eq_refl) as [Hback _].
  - intros r [<- | [<- | [<- | []]]]; discriminate.
  - apply Hback; reflexivity.
Defined.

Lemma insert_desc_by_perm {A : Type} (key : A -> Z) (r : A) (l : list A) :
  Permutation (r :: l) (insert_desc_by key r l).
Proof.
  induction l as [| x l IH]; simpl.
  - apply Permutation_refl.
  - destruct (key x <? key r)%Z.
    + apply Permutation_refl.
    + eapply perm_trans; [apply perm_swap | now apply perm_skip].
Qed.

Lemma order_desc_by_perm {A : Type} (key : A -> Z) (l : list A) :
  Permutation l (order_desc_by key l).
Proof.
  induction l as [| r l IH]; simpl.
  - apply perm_nil.
  - eapply perm_trans; [apply perm_skip, IH | apply insert_desc_by_perm].
Qed.

Lemma order_desc_by_sorted {A : Type} (key : A -> Z) (l : list A) :
  StronglySorted (fun a b => (key b <= key a)%Z) (order_desc_by key l).
Proof.
  induction l as [| r l IH]; simpl; [constructor |].
  revert IH. generalize (order_desc_by key l). clear l.
  intros l. induction l as [| x l IHl]; simpl; intros Hs.
  - constructor; constructor.
  - apply StronglySorted_inv in Hs as [Hs Hx].
    destruct (Z.ltb_spec (key x) (key r)) as [Hlt | Hge].
    + constructor; [now constructor |].
      constructor; [lia |].
      eapply Forall_impl; [| exact Hx]. intros y Hy. cbv beta in *. lia.
    + constructor; [now apply IHl |].
      eapply Permutation_Forall; [apply insert_desc_by_perm |].
      now constructor.
Qed.

(** X21: the server component shows the signed-in user their own rows and
    no other: when the select is accepted the view lists the ids of
    exactly the rows of [your_table] owned by the user, each once, newest
    first; when it is refused the view is the fixed error text, the error
    goes to the console, and the component returns normally. Nothing is
    written in either case. *)
Theorem server_component_shows_own_rows (env : Env) (w : World)
        (uid : string) :
  who env = Some uid ->
  (fails env (SelectItems uid) = None ->
   exists rows,
     ServerDataComponent env (start w) =
     (Ok (ItemsView (map id rows)),
      {| world := w;
         log := [CallGetUser (Some uid); Query (SelectItems uid) None] |}) /\
     Permutation (filter (owned_by uid) (your_table w)) rows /\
     StronglySorted newer_or_equal rows /\
     (forall r, In r rows -> user_id r = uid)) /\
  (forall e, fails env (SelectItems uid) = Some e ->
     ServerDataComponent env (start w) =
     (Ok (ErrorView "Error loading data"),
      {| world := w;
         log := [CallGetUser (Some uid); Query (SelectItems uid) (Some e);
                 ConsoleError "Database error:" e] |})).
Proof.
  intros Hwho. split.
  - intros Hok.
    exists (order_desc_by created_at (filter (owned_by uid) (your_table w))).
    split; [| split; [| split]].
    + step_action. rewrite Hwho. cbn [world log app]. rewrite Hok.
      reflexivity.
    + apply order_desc_by_perm.
    + apply order_desc_by_sorted.
    + intros r Hin.
      eapply Permutation_in in Hin;
        [| apply Permutation_sym, order_desc_by_perm].
      apply filter_In in Hin as [_ Hown]. now apply String.eqb_eq in Hown.
  - intros e He. step_action. rewrite Hwho. cbn [world log app].
    rewrite He. reflexivity.
Qed.

Lemma server_component_shows_own_rows_witness :
  exists rows,
    ServerDataComponent Desk.ann (start Desk.desk) =
    (Ok (ItemsView (map id rows)),
     {| world := Desk.desk;
        log := [CallGetUser (Some "ann"); Query (SelectItems "ann") None] |}) /\
    Permutation [Desk.item "r1" "ann" "plan" 10; Desk.item "r3" "ann" "diet" 30]
                rows /\
    StronglySorted newer_or_equal rows /\
    (forall r, In r rows -> user_id r = "ann").
Proof.
  destruct (@server_component_shows_own_rows Desk.ann Desk.desk "ann" eq_refl)
    as [Hok _].
  exact (Hok eq_refl).
Defined.

(** The three ways [actionWithErrorHandling] runs. *)
Lemma error_action_primary_refused (env : Env) (fd : Signup.FormData)
      (w : World) (e : string) :
  fails env InsertPrimary = Some e ->
  actionWithErrorHandling env fd (start w) =
  (Raise (RedirectError ("/error?message=" ++ e)),
   {| world := w;
      log := [Query InsertPrimary (Some e); ConsoleError "Action error:" e] |}).
Proof.
  intros H.
  unfold actionWithErrorHandling, try_catch, bind, insert_primary,
    run_statement, throw, console_error, redirect, emit, start, message_of.
  rewrite H. reflexivity.
Qed.

Lemma error_action_related_refused (env : Env) (fd : Signup.FormData)
      (w : World) (e : string) :
  fails env InsertPrimary = None ->
  fails env (InsertRelated (fresh_id env)) = Some e ->
  actionWithErrorHandling env fd (start w) =
  (Raise (RedirectError ("/error?message=" ++ e)),
   {| world :=
        match fails env (DeletePrimary (fresh_id env)) with
        | Some _ =>
            set_primary_table w
              (primary_table w ++ [{| primary_key := fresh_id env |}])
        | None =>
            set_primary_table w
              (filter (fun p => negb (String.eqb (primary_key p)
                                                 (fresh_id env)))
                      (primary_table w ++ [{| primary_key := fresh_id env |}]))
        end;
      log := [Query InsertPrimary None;
              Query (InsertRelated (fresh_id env)) (Some e);
              Query (DeletePrimary (fresh_id env))
                    (fails env (DeletePrimary (fresh_id env)));
              ConsoleError "Action error:" e] |}).
Proof.
  intros H1 H2.
  unfold actionWithErrorHandling, try_catch, bind, insert_primary,
    insert_related, delete_primary, run_statement, throw, console_error,
    redirect, emit, start, message_of, with_world.
  rewrite H1. cbn [world log app primary_key]. rewrite H2.
  cbn [world log app].
  destruct (fails env (DeletePrimary (fresh_id env))); reflexivity.
Qed.

Lemma error_action_all_accepted (env : Env) (fd : Signup.FormData)
      (w : World) :
  fails env InsertPrimary = None ->
  fails env (InsertRelated (fresh_id env)) = None ->
  actionWithErrorHandling env fd (start w) =
  (Raise (RedirectError ("/error?message=" ++ redirect_message env)),
   {| world :=
        set_related_table
          (set_primary_table w
             (primary_table w ++ [{| primary_key := fresh_id env |}]))
          (related_table w ++ [{| primary_id := fresh_id env |}]);
      log := [Query InsertPrimary None;
              Query (InsertRelated (fresh_id env)) None;
              CallRevalidatePath "/dashboard" None;
              ConsoleError "Action error:" (redirect_message env)] |}).
Proof.
  intros H1 H2.
  unfold actionWithErrorHandling, try_catch, bind, insert_primary,
    insert_related, run_statement, throw, console_error, revalidatePath,
    redirect, emit, start, message_of, with_world.
  rewrite H1. cbn [world log app primary_key]. rewrite H2. reflexivity.
Qed.

(** X22: [actionWithErrorHandling] never ends on /dashboard: every run
    ends in a redirect to /error?message=..., and when both inserts are
    accepted the redirect to /dashboard thrown inside the [try] block is
    caught by its [catch] clause, so that the run stores both rows,
    revalidates /dashboard, logs an "Action error:" line and sends the user
    to /error with the message of the redirect error. *)
Theorem error_action_never_reaches_dashboard
        (env : Env) (fd : Signup.FormData) (w : World) :
  (exists m,
      fst (actionWithErrorHandling env fd (start w)) =
      Raise (RedirectError ("/error?message=" ++ m))) /\
  fst (actionWithErrorHandling env fd (start w)) <>
  Raise (RedirectError "/dashboard") /\
  (fails env InsertPrimary = None ->
   fails env (InsertRelated (fresh_id env)) = None ->
   let st := snd (actionWithErrorHandling env fd (start w)) in
   fst (actionWithErrorHandling env fd (start w)) =
   Raise (RedirectError ("/error?message=" ++ redirect_message env)) /\
   primary_table (world st) =
   (primary_table w ++ [{| primary_key := fresh_id env |}])%list /\
   related_table (world st) =
   (related_table w ++ [{| primary_id := fresh_id env |}])%list /\
   In (CallRevalidatePath "/dashboard" None) (log st) /\
   In (ConsoleError "Action error:" (redirect_message env)) (log st)).
Proof.
  destruct (fails env InsertPrimary) as [e |] eqn:H1.
  - rewrite (error_action_primary_refused env fd w H1). cbn [fst].
    split; [now exists e |]. split; [discriminate | discriminate].
  - destruct (fails env (InsertRelated (fresh_id env))) as [e |] eqn:H2.
    + rewrite (error_action_related_refused env fd w H1 H2). cbn [fst].
      split; [now exists e |]. split; [discriminate | discriminate].
    + rewrite (error_action_all_accepted env fd w H1 H2). cbn [fst snd].
      split; [now exists (redirect_message env) |].
      split; [discriminate |]. intros _ _. cbn [world log].
      split; [reflexivity |]. split; [reflexivity |].
      split; [reflexivity |].
      split; [right; right; left; reflexivity |].
      right; right; right; left; reflexivity.
Qed.

Lemma error_action_never_reaches_dashboard_witness :
  fst (actionWithErrorHandling Desk.ann [] (start Desk.desk)) =
  Raise (RedirectError "/error?message=NEXT_REDIRECT") /\
  primary_table
    (world (snd (actionWithErrorHandling Desk.ann [] (start Desk.desk)))) =
  [{| primary_key := "r4" |}] /\
  related_table
    (world (snd (actionWithErrorHandling Desk.ann [] (start Desk.desk)))) =
  [{| primary_id := "r4" |}].
Proof.
  destruct (error_action_never_reaches_dashboard Desk.ann [] Desk.desk)
    as [_ [_ Hok]].
  destruct (Hok eq_refl eq_refl) as [Hrun [Hprimary [Hrelated _]]].
  split; [exact Hrun |]. split; [exact Hprimary | exact Hrelated].
Defined.

(** X23: the cleanup of [actionWithErrorHandling]: a refused first insert
    ends the run with no other statement and no change; a refused second
    insert is followed by exactly one delete of the row just created, whose
    answer shows nowhere in the outcome; when that delete is accepted and
    the generated id was new, all tables end as they started, and when it
    is refused the primary row stays without its related row. *)
Theorem error_action_cleanup (env : Env) (fd : Signup.FormData) (w : World) :
  let run := actionWithErrorHandling env fd (start w) in
  (forall e, fails env InsertPrimary = Some e ->
     fst run = Raise (RedirectError ("/error?message=" ++ e)) /\
     statements (log (snd run)) = [InsertPrimary] /\
     world (snd run) = w) /\
  (forall e,
     fails env InsertPrimary = None ->
     fails env (InsertRelated (fresh_id env)) = Some e ->
     fst run = Raise (RedirectError ("/error?message=" ++ e)) /\
     statements (log (snd run)) =
     [InsertPrimary; InsertRelated (fresh_id env);
      DeletePrimary (fresh_id env)] /\
     related_table (world (snd run)) = related_table w /\
     (fails env (DeletePrimary (fresh_id env)) = None ->
      (forall p, In p (primary_table w) -> primary_key p <> fresh_id env) ->
      world (snd run) = w) /\
     (fails env (DeletePrimary (fresh_id env)) <> None ->
      primary_table (world (snd run)) =
      (primary_table w ++ [{| primary_key := fresh_id env |}])%list)).
Proof.
  cbv zeta. split.
  - intros e H1. rewrite (error_action_primary_refused env fd w H1).
    repeat split.
  - intros e H1 H2. rewrite (error_action_related_refused env fd w H1 H2).
    cbn [fst snd world log].
    split; [reflexivity |]. split; [reflexivity |].
    split; [now destruct (fails env (DeletePrimary _)) |].
    split.
    + intros Hdel Hfresh. rewrite Hdel. unfold set_primary_table.
      rewrite filter_app. simpl. rewrite String.eqb_refl. simpl.
      rewrite app_nil_r.
      assert (Hkeep : filter (fun p => negb (String.eqb (primary_key p)
                                                        (fresh_id env)))
                             (primary_table w) = primary_table w).
      { clear - Hfresh. induction (primary_table w) as [| p l IH]; simpl;
          [reflexivity |].
        destruct (String.eqb_spec (primary_key p) (fresh_id env)) as [E | E].
        - exfalso. apply (Hfresh p); [now left | exact E].
        - simpl. rewrite IH; [reflexivity |].
          intros q Hq. apply Hfresh. now right. }
      rewrite Hkeep. now destruct w.
    + intros Hdel.
      destruct (fails env (DeletePrimary _)); [reflexivity | congruence].
Qed.

Lemma error_action_cleanup_witness :
  let run := actionWithErrorHandling Desk.ann_related_down [] (start Desk.desk)
  in
  fst run = Raise (RedirectError "/error?message=related failed") /\
  primary_table (world (snd run)) = [{| primary_key := "p1" |}] /\
  related_table (world (snd run)) = [].
Proof.
  destruct (error_action_cleanup Desk.ann_related_down [] Desk.desk)
    as [_ Hrel].
  destruct (Hrel "related failed" eq_refl eq_refl)
    as [Hrun [_ [Hrelated [_ Horphan]]]].
  cbv zeta. split; [exact Hrun |]. split; [| exact Hrelated].
  apply Horphan. discriminate.
Defined.

(** X24: [login] and [logout] write nothing and make one auth call each:
    [login] ends on /dashboard, after revalidating the layout, exactly when
    the sign-in answers no error, and otherwise on the fixed target
    /login?message=Could not authenticate user, with nothing on the console
    and no trace of the provider's error; [logout] ends on /login whatever
    the sign-out answers. *)
Theorem login_and_logout (env : Env) (fd : Signup.FormData) (w : World) :
  (signIn_error env = None ->
   login env fd (start w) =
   (Raise (RedirectError "/dashboard"),
    {| world := w;
       log := [CallSignIn (Signup.FormData_get fd "email")
                          (Signup.FormData_get fd "password") None;
               CallRevalidatePath "/" (Some "layout")] |})) /\
  (forall e, signIn_error env = Some e ->
   login env fd (start w) =
   (Raise (RedirectError "/login?message=Could not authenticate user"),
    {| world := w;
       log := [CallSignIn (Signup.FormData_get fd "email")
                          (Signup.FormData_get fd "password") (Some e)] |})) /\
  logout env (start w) =
  (Raise (RedirectError "/login"),
   {| world := w; log := [CallSignOut (signOut_error env)] |}).
Proof.
  split; [| split].
  - intros H. step_action. rewrite H. reflexivity.
  - intros e H. step_action. rewrite H. reflexivity.
  - reflexivity.
Qed.

Lemma login_and_logout_witness :
  fst (login Desk.ann Scenario.form (start Desk.desk)) =
  Raise (RedirectError "/dashboard") /\
  fst (login Desk.nobody Scenario.form (start Desk.desk)) =
  Raise (RedirectError "/login?message=Could not authenticate user") /\
  fst (logout Desk.nobody (start Desk.desk)) = Raise (RedirectError "/login").
Proof.
  destruct (login_and_logout Desk.ann Scenario.form Desk.desk)
    as [Hin _].
  destruct (login_and_logout Desk.nobody Scenario.form Desk.desk)
    as [_ [Hbad Hout]].
  rewrite (Hin eq_refl), (Hbad "Invalid login credentials" eq_refl), Hout.
  repeat split.
Defined.

End ServerActionFacts.
